(** * FocaBotCore (Azarasi): module registration, event routing and the
      CouchDB data store

    A shallow embedding of [src/module.ts] ([Module] and [CouchDataStore])
    and of [src/index.js] ([Azarasi.processMessage]).  JavaScript objects
    are records, arrays are lists, [Map]s are finite maps, function values
    are compared by reference and therefore carry an identity, and an
    [async] method is a state transformer that returns the state its
    promise settles in. *)

From Stdlib Require Import ZArith Lia Ascii String.
From stdpp Require Import gmap strings list fin_maps.

Local Open Scope Z_scope.
Local Open Scope nat_scope.

(** ** JavaScript arrays *)

Module JsArray.
Section array.
Context {A : Type} `{EqDecision A}.

(** Scans [l], whose head sits at index [i], for the first element
    strictly equal to [x]. *)
Fixpoint scan (x : A) (l : list A) (i : Z) : Z :=
  match l with
  | [] => (-1)%Z
  | y :: l' => if decide (y = x) then i else scan x l' (i + 1)%Z
  end.

(** [arr.indexOf(x, fromIndex)] for a non-negative [fromIndex]. *)
Definition indexOf (x : A) (l : list A) (fromIndex : nat) : Z :=
  scan x (drop fromIndex l) (Z.of_nat fromIndex).

(** The index [splice] really starts at: a negative [start] counts from
    the end, and everything is clamped to [0 .. length]. *)
Definition relative_start (start : Z) (len : nat) : nat :=
  if (start <? 0)%Z then Z.to_nat (Z.max (Z.of_nat len + start) 0)
  else Z.to_nat (Z.min start (Z.of_nat len)).

(** [arr.splice(start, deleteCount)]: the array that is left.  Without a
    [deleteCount] everything from [start] on is removed. *)
Definition splice (start : Z) (deleteCount : option Z) (l : list A) : list A :=
  let s := relative_start start (length l) in
  let d := match deleteCount with
           | None => length l - s
           | Some c => Z.to_nat (Z.min (Z.max c 0) (Z.of_nat (length l - s)))
           end in
  take s l ++ drop (s + d) l.

(** [arr.push(x)]. *)
Definition push (x : A) (l : list A) : list A := l ++ [x].
End array.
End JsArray.

(** ** Values, functions and errors *)

(** A guild is known by its id. *)
Definition Guild : Type := string.

(** What an event carries, as far as the code looks at it: a falsy value,
    plain data, a [Discord.Guild] instance, or an object whose [guild]
    field is a [Discord.Guild] instance or is missing. *)
Inductive Value :=
| VNull
| VNum (n : Z)
| VStr (s : string)
| VGuild (g : Guild)
| VObj (guild : option Guild).

(** A function written by the module's author, known by its identity. *)
Definition Handler : Type := nat.

(** A function attached to an event source: the author's function itself,
    or the closure [wrapper] that one call of [registerEvent] created
    around it. *)
Inductive Listener :=
| Raw (h : Handler)
| Wrapper (w : nat) (h : Handler).

Inductive Error :=
| HttpError (status : nat)
| TypeError (msg : string)
| Err (msg : string).

(** How far a promise got. *)
Inductive Settled (A : Type) :=
| Pending
| Fulfilled (a : A)
| Rejected (e : Error).
Arguments Pending {A}.
Arguments Fulfilled {A} a.
Arguments Rejected {A} e.

#[global] Instance Value_eq_dec : EqDecision Value.
Proof. solve_decision. Defined.
#[global] Instance Listener_eq_dec : EqDecision Listener.
Proof. solve_decision. Defined.
#[global] Instance Error_eq_dec : EqDecision Error.
Proof. solve_decision. Defined.
#[global] Instance Settled_eq_dec {A} `{EqDecision A} : EqDecision (Settled A).
Proof. solve_decision. Defined.

(** ** Node's EventEmitter *)

Module EventEmitter.
(** The listener arrays, by event name. *)
Abbreviation t := (gmap string (list Listener)).

Definition listeners (name : string) (em : t) : list Listener :=
  default [] (em !! name).

(** [emitter.on(name, f)] appends [f]. *)
Definition on (name : string) (f : Listener) (em : t) : t :=
  <[name := listeners name em ++ [f]]> em.

(** Removes the occurrence of [f] nearest to the end of [l]. *)
Fixpoint remove_last (f : Listener) (l : list Listener) : list Listener :=
  match l with
  | [] => []
  | g :: l' =>
      if decide (g = f)
      then (if bool_decide (f ∈ l') then g :: remove_last f l' else l')
      else g :: remove_last f l'
  end.

(** [emitter.removeListener(name, f)] removes at most one instance of
    [f], the most recently added one. *)
Definition removeListener (name : string) (f : Listener) (em : t) : t :=
  match em !! name with
  | None => em
  | Some l => <[name := remove_last f l]> em
  end.
End EventEmitter.

(** ** Data stores *)

Module DataStores.
(** [new DataSubscription(key, handler)].  [ref] is the identity of the
    object; its [off] field holds a closure of the store that made it. *)
Record DataSubscription := {
  ref : nat;
  key : string;
  handler : Listener
}.

#[global] Instance DataSubscription_eq_dec : EqDecision DataSubscription.
Proof. solve_decision. Defined.

(** What [subscribe] hands to a caller that does not await it: the
    subscription itself, or the promise of an [async] method. *)
Inductive SubRef :=
| SubObject (s : DataSubscription)
| SubPromise (p : Settled DataSubscription).

#[global] Instance SubRef_eq_dec : EqDecision SubRef.
Proof. solve_decision. Defined.

(** The part of [IDataStore] that [Module] uses: [subscribe], the effect
    of the [off] closure of a subscription, and the delivery of a change
    of the value at a key. *)
Class IDataStore (DS : Type) := {
  ds_subscribe : string -> Listener -> DS -> SubRef * DS;
  ds_off : DataSubscription -> DS -> DS;
  ds_change : string -> Value -> DS -> list (Listener * Value)
}.
End DataStores.

(** ** The CouchDB data store ([CouchDataStore]) *)

Module Couch.
Import DataStores.

(** A document as the code handles it: [DataStructure], whose [_id] and
    [_rev] are missing from the object [{ val: null }] that [get] makes
    up for a key it cannot read. *)
Record DataStructure := {
  _id : option string;
  _rev : option nat;
  val : Value
}.

(** The documents the server holds: revision and value, by id. *)
Abbreviation Docs := (gmap string (nat * Value)).

(** *** The server behind [nano]'s document scope

    CouchDB is an external system; these follow its document API for
    document ids, that is names that are not empty and do not start with
    an underscore.  What [nano] and the server answer for the empty name
    and for the names CouchDB keeps for itself is not modelled; the
    properties of keys without a document are stated for document ids.
    [uuid] is the id the server gives a document posted without one. *)
Section server.
Variable uuid : Docs -> string.

(** [db.get(key)] for a document id: the document, or 404. *)
Definition db_get (k : string) (docs : Docs) : Error + DataStructure :=
  match docs !! k with
  | Some (r, v) => inr {| _id := Some k; _rev := Some r; val := v |}
  | None => inl (HttpError 404)
  end.

(** [db.insert(doc)]: a document without [_id] is stored under an id of
    the server's choosing; one with [_id] is created, or replaces the
    stored one when [_rev] is the stored revision; otherwise 409. *)
Definition db_insert (d : DataStructure) (docs : Docs) : Error + Docs :=
  match _id d with
  | None =>
      match docs !! uuid docs with
      | None => inr (<[uuid docs := (1, val d)]> docs)
      | Some _ => inl (HttpError 409)
      end
  | Some k =>
      match docs !! k with
      | None =>
          match _rev d with
          | None => inr (<[k := (1, val d)]> docs)
          | Some _ => inl (HttpError 409)
          end
      | Some (r, _) =>
          if decide (_rev d = Some r) then inr (<[k := (S r, val d)]> docs)
          else inl (HttpError 409)
      end
  end.

(** [db.destroy(key, rev)]: deletes the document when [rev] is its
    stored revision. *)
Definition db_destroy (k : string) (rev : option nat) (docs : Docs) : Error + Docs :=
  match docs !! k with
  | None => inl (HttpError 404)
  | Some (r, _) =>
      if decide (rev = Some r) then inr (delete k docs)
      else inl (HttpError 409)
  end.
End server.

(** *** The store *)

(** A call of one of the store's [async] methods. *)
Inductive Call :=
| CGet (k : string) (raw : bool)
| CSet (k : string) (v : Value)
| CDel (k : string)
| CSubscribe (k : string) (h : Listener).

(** The fields of [CouchDataStore].  [db] is the database the document
    scope talks to, [feed] tells whether [connect] has attached the change
    feed, [_emitter] lists the calls waiting in a [once('connected')]
    listener, and [heap] is the next free object identity. *)
Record CouchDataStore := {
  db : Docs;
  feed : bool;
  subscriptions : list DataSubscription;
  _emitter : list Call;
  connected : bool;
  ready : bool;
  heap : nat
}.

(** [new CouchDataStore(az)] over a database holding [docs]. *)
Definition new (docs : Docs) : CouchDataStore :=
  {| db := docs; feed := false; subscriptions := []; _emitter := [];
     connected := false; ready := false; heap := 0 |}.

Definition set_db (docs : Docs) (st : CouchDataStore) : CouchDataStore :=
  {| db := docs; feed := feed st; subscriptions := subscriptions st;
     _emitter := _emitter st; connected := connected st; ready := ready st;
     heap := heap st |}.

Definition set_feed (b : bool) (st : CouchDataStore) : CouchDataStore :=
  {| db := db st; feed := b; subscriptions := subscriptions st;
     _emitter := _emitter st; connected := connected st; ready := ready st;
     heap := heap st |}.

Definition set_subscriptions (l : list DataSubscription) (st : CouchDataStore)
  : CouchDataStore :=
  {| db := db st; feed := feed st; subscriptions := l;
     _emitter := _emitter st; connected := connected st; ready := ready st;
     heap := heap st |}.

Definition set__emitter (l : list Call) (st : CouchDataStore) : CouchDataStore :=
  {| db := db st; feed := feed st; subscriptions := subscriptions st;
     _emitter := l; connected := connected st; ready := ready st;
     heap := heap st |}.

Definition set_heap (n : nat) (st : CouchDataStore) : CouchDataStore :=
  {| db := db st; feed := feed st; subscriptions := subscriptions st;
     _emitter := _emitter st; connected := connected st; ready := ready st;
     heap := n |}.

(** An [async] method: the state it leaves and how its promise stands. *)
Definition Async (A : Type) : Type := CouchDataStore -> Settled A * CouchDataStore.

Definition resolve {A} (a : A) : Async A := fun st => (Fulfilled a, st).

(** [await m] followed by [k]: a pending or rejected [m] ends the method
    there. *)
Definition await {A B} (m : Async A) (k : A -> Async B) : Async B :=
  fun st =>
    match m st with
    | (Fulfilled a, st') => k a st'
    | (Pending, st') => (Pending, st')
    | (Rejected e, st') => (Rejected e, st')
    end.

(** [try { await m; k } catch (e) { h }] where [k] cannot throw. *)
Definition try_await {A B} (m : Async A) (k : A -> Async B) (h : Error -> Async B)
  : Async B :=
  fun st =>
    match m st with
    | (Fulfilled a, st') => k a st'
    | (Pending, st') => (Pending, st')
    | (Rejected e, st') => h e st'
    end.

(** [connect]: the look-up of the database is not awaited, so its [catch]
    never runs; the change feed is attached and followed.  Neither
    [ready] nor [connected] is assigned, and nothing is emitted on
    [_emitter]. *)
Definition connect : Async unit :=
  fun st => (Fulfilled tt, set_feed true st).

(** [ensureReady], called on behalf of [c]: resolved when [ready], else a
    promise that a [once('connected')] listener would resolve. *)
Definition ensureReady (c : Call) : Async unit :=
  fun st =>
    if ready st then (Fulfilled tt, st)
    else (Pending, set__emitter (_emitter st ++ [c]) st).

(** A request to the server as a promise. *)
Definition request {A} (r : Docs -> Error + A) : Async A :=
  fun st => match r (db st) with
            | inr a => (Fulfilled a, st)
            | inl e => (Rejected e, st)
            end.

(** What [get] resolves to: the document when [raw], else its [val]. *)
Inductive GetResult :=
| RawDoc (d : DataStructure)
| Plain (v : Value).

Definition get (k : string) (raw : bool) : Async GetResult :=
  await (ensureReady (CGet k raw)) (fun _ =>
  try_await (request (db_get k))
    (fun doc => resolve (if raw then RawDoc doc else Plain (val doc)))
    (fun _ => resolve (if raw then RawDoc {| _id := None; _rev := None; val := VNull |}
                       else Plain VNull))).

(** [{ ...orig, val }]: the own fields of [orig], with [val] replaced. *)
Definition spread_val (orig : GetResult) (v : Value) : DataStructure :=
  match orig with
  | RawDoc d => {| _id := _id d; _rev := _rev d; val := v |}
  | Plain _ => {| _id := None; _rev := None; val := v |}
  end.

(** [orig._rev]. *)
Definition rev_of (orig : GetResult) : option nat :=
  match orig with
  | RawDoc d => _rev d
  | Plain _ => None
  end.

Section methods.
Variable uuid : Docs -> string.

Definition set (k : string) (v : Value) : Async string :=
  await (ensureReady (CSet k v)) (fun _ =>
  await (get k true) (fun orig =>
  await (fun st => match db_insert uuid (spread_val orig v) (db st) with
                   | inr docs => (Fulfilled tt, set_db docs st)
                   | inl e => (Rejected e, st)
                   end) (fun _ =>
  resolve "OK"%string))).

Definition del (k : string) : Async string :=
  await (get k true) (fun orig =>
  await (fun st => match db_destroy k (rev_of orig) (db st) with
                   | inr docs => (Fulfilled tt, set_db docs st)
                   | inl e => (Rejected e, st)
                   end) (fun _ =>
  resolve "OK"%string)).
End methods.

(** [sub.off], the closure
    [() => this.subscriptions.splice(this.subscriptions.indexOf(sub, 1))]. *)
Definition off (sub : DataSubscription) (st : CouchDataStore) : CouchDataStore :=
  set_subscriptions
    (JsArray.splice (JsArray.indexOf sub (subscriptions st) 1) None (subscriptions st))
    st.

Definition subscribe (k : string) (h : Listener) : Async DataSubscription :=
  await (ensureReady (CSubscribe k h)) (fun _ st =>
    let sub := {| ref := heap st; key := k; handler := h |} in
    (Fulfilled sub,
     set_heap (S (heap st))
       (set_subscriptions (JsArray.push sub (subscriptions st)) st))).

(** The listener of the feed's ['change'] event, for the change of the
    document [id] to [v]: the handlers it calls, in order, with their
    argument. *)
Definition on_change (id : string) (v : Value) (st : CouchDataStore)
  : list (Listener * Value) :=
  map (fun s => (handler s, v))
      (List.filter (fun s => bool_decide (key s = id)) (subscriptions st)).

(** The store as [Module] sees it.  [subscribe] is [async] and
    [registerEvent] does not await it, so the caller holds a promise. *)
#[global] Instance Couch_IDataStore : IDataStore CouchDataStore := {
  ds_subscribe k h st := let '(p, st') := subscribe k h st in (SubPromise p, st');
  ds_off := off;
  ds_change := on_change
}.

(** The store's methods as one type of call results, and the store as a
    machine driven by what can be done to it from outside. *)
Inductive Result :=
| RGet (r : GetResult)
| ROk (s : string)
| RSub (s : DataSubscription)
| RUnit
| RCalled (l : list (Listener * Value)).

Definition lift {A} (f : A -> Result) (m : Async A) : Async Result :=
  await m (fun a => resolve (f a)).

Definition exec (uuid : Docs -> string) (c : Call) : Async Result :=
  match c with
  | CGet k raw => lift RGet (get k raw)
  | CSet k v => lift ROk (set uuid k v)
  | CDel k => lift ROk (del k)
  | CSubscribe k h => lift RSub (subscribe k h)
  end.

(** [AConnect] is a call of [connect], [ACall] a call of a method, [AOff] a
    call of a subscription's [off], and [AChange] a ['change'] event of the
    feed, which is heard once [connect] has attached the listener. *)
Inductive Action :=
| AConnect
| ACall (c : Call)
| AOff (s : DataSubscription)
| AChange (id : string) (v : Value).

Definition step (uuid : Docs -> string) (a : Action) : Async Result :=
  match a with
  | AConnect => lift (fun _ => RUnit) connect
  | ACall c => exec uuid c
  | AOff s => fun st => (Fulfilled RUnit, off s st)
  | AChange id v =>
      fun st => (Fulfilled (RCalled (if feed st then on_change id v st else [])), st)
  end.

Fixpoint run (uuid : Docs -> string) (acts : list Action) (st : CouchDataStore)
  : list (Settled Result) * CouchDataStore :=
  match acts with
  | [] => ([], st)
  | a :: acts' =>
      let '(r, st') := step uuid a st in
      let '(rs, st'') := run uuid acts' st' in
      (r :: rs, st'')
  end.

(** Whether a result is that of a method still waiting. *)
Definition is_pending {A} (r : Settled A) : bool :=
  match r with
  | Pending => true
  | _ => false
  end.

(** Whether every method call among [acts] is still waiting in [rs]. *)
Fixpoint all_deferred (acts : list Action) (rs : list (Settled Result)) : bool :=
  match acts, rs with
  | ACall _ :: acts', r :: rs' => is_pending r && all_deferred acts' rs'
  | _ :: acts', _ :: rs' => all_deferred acts' rs'
  | [], [] => true
  | _, _ => false
  end.
End Couch.

(** ** Document ids *)

Module CouchKeys.
(** Whether [k] is a document id: not empty, and not one of the names
    starting with an underscore, which CouchDB keeps for the endpoints of
    the database and for its design and local documents. *)
Definition is_docid (k : string) : bool :=
  match k with
  | EmptyString => false
  | String c _ => negb (bool_decide (c = "_"%char))
  end.
End CouchKeys.

(** ** Strings *)

Module JsString.
(** [s.split('.')]: never empty. *)
Fixpoint split_dot (s : string) : list string :=
  match s with
  | EmptyString => [EmptyString]
  | String c rest =>
      if decide (c = "."%char) then EmptyString :: split_dot rest
      else match split_dot rest with
           | hd :: tl => String c hd :: tl
           | [] => [String c EmptyString]
           end
  end.

(** [parts.join('.')]. *)
Fixpoint join_dot (parts : list string) : string :=
  match parts with
  | [] => EmptyString
  | [p] => p
  | p :: rest => (p ++ "." ++ join_dot rest)%string
  end.
End JsString.

(** ** Commands *)

Module Command.
Inductive Trigger :=
| Name (s : string)
| Pattern (source : string).

(** [CommandOptions], an object literal; [{}] is the empty map. *)
Abbreviation CommandOptions := (gmap string Value).

(** The fields of [Command] that [Module] reads or writes. *)
Record t := {
  name : string;
  handler : Handler;
  module : option string
}.

Definition set_module (m : string) (c : t) : t :=
  {| name := name c; handler := handler c; module := Some m |}.

#[global] Instance Trigger_eq_dec : EqDecision Trigger.
Proof. solve_decision. Defined.
#[global] Instance t_eq_dec : EqDecision t.
Proof. solve_decision. Defined.
End Command.

(** ** [Module] *)

Module ModuleTs.
Import DataStores.

Inductive ModuleEventType :=
| Azarasi
| Discord
| DataStore.

Record ModuleEvent := {
  name : string;
  evName : option string;
  handler : option Listener;
  sub : option SubRef;
  originalHandler : Handler;
  type : ModuleEventType
}.

#[global] Instance ModuleEventType_eq_dec : EqDecision ModuleEventType.
Proof. solve_decision. Defined.
#[global] Instance ModuleEvent_eq_dec : EqDecision ModuleEvent.
Proof. solve_decision. Defined.

(** The second argument of [registerCommand]: the options or the handler. *)
Inductive Arg1 :=
| Options (o : Command.CommandOptions)
| Function (h : Handler).

Section module.
Context {CM DS : Type} `{IDataStore DS}.

(** [az.commands.register], of the command manager: the command, or the
    error it throws, and the manager afterwards. *)
Variable register :
  Command.Trigger -> Command.CommandOptions -> Handler -> CM -> (Error + Command.t) * CM.

(** What [mod.isDisabledForGuild(guild)] resolves to. *)
Variable isDisabledForGuild : Guild -> bool.

(** A module [this] with the instance [this.az] it belongs to.  [az_log] is
    what [az.logError] has been given, [next_id] the identity of the next
    closure. *)
Record World := {
  id : string;
  commands : gmap string Command.t;
  events : list ModuleEvent;
  az_commands : CM;
  az_events : EventEmitter.t;
  bot : EventEmitter.t;
  az_data : DS;
  az_log : list Error;
  next_id : nat
}.

Definition set_commands (c : gmap string Command.t) (w : World) : World :=
  {| id := id w; commands := c; events := events w; az_commands := az_commands w;
     az_events := az_events w; bot := bot w; az_data := az_data w;
     az_log := az_log w; next_id := next_id w |}.

Definition set_events (l : list ModuleEvent) (w : World) : World :=
  {| id := id w; commands := commands w; events := l; az_commands := az_commands w;
     az_events := az_events w; bot := bot w; az_data := az_data w;
     az_log := az_log w; next_id := next_id w |}.

Definition set_az_commands (c : CM) (w : World) : World :=
  {| id := id w; commands := commands w; events := events w; az_commands := c;
     az_events := az_events w; bot := bot w; az_data := az_data w;
     az_log := az_log w; next_id := next_id w |}.

Definition set_az_events (e : EventEmitter.t) (w : World) : World :=
  {| id := id w; commands := commands w; events := events w;
     az_commands := az_commands w; az_events := e; bot := bot w;
     az_data := az_data w; az_log := az_log w; next_id := next_id w |}.

Definition set_bot (e : EventEmitter.t) (w : World) : World :=
  {| id := id w; commands := commands w; events := events w;
     az_commands := az_commands w; az_events := az_events w; bot := e;
     az_data := az_data w; az_log := az_log w; next_id := next_id w |}.

Definition set_az_data (d : DS) (w : World) : World :=
  {| id := id w; commands := commands w; events := events w;
     az_commands := az_commands w; az_events := az_events w; bot := bot w;
     az_data := d; az_log := az_log w; next_id := next_id w |}.

Definition logError (e : Error) (w : World) : World :=
  {| id := id w; commands := commands w; events := events w;
     az_commands := az_commands w; az_events := az_events w; bot := bot w;
     az_data := az_data w; az_log := az_log w ++ [e]; next_id := next_id w |}.

Definition set_next_id (n : nat) (w : World) : World :=
  {| id := id w; commands := commands w; events := events w;
     az_commands := az_commands w; az_events := az_events w; bot := bot w;
     az_data := az_data w; az_log := az_log w; next_id := n |}.

(** How a method ends: it returns, or an exception leaves it. *)
Inductive Outcome (A : Type) :=
| Return (a : A) (w : World)
| Throw (e : Error) (w : World).
Arguments Return {A} a w.
Arguments Throw {A} e w.

(** [typeof arg1 === 'function' ? arg1 : arg2]. *)
Definition handler_of (arg1 : Arg1) (arg2 : option Handler) : option Handler :=
  match arg1 with
  | Function h => Some h
  | Options _ => arg2
  end.

(** [typeof arg1 === 'object' ? arg1 : {}]. *)
Definition options_of (arg1 : Arg1) : Command.CommandOptions :=
  match arg1 with
  | Options o => o
  | Function _ => ∅
  end.

(** [registerCommand(arg0, arg1, arg2)]; [None] stands for [false].
    [command.module = this] is recorded on the command the module keeps. *)
Definition registerCommand (arg0 : Command.Trigger) (arg1 : Arg1)
    (arg2 : option Handler) (w : World) : Outcome (option Command.t) :=
  match handler_of arg1 arg2 with
  | None => Throw (Err "No command handler specified.") w
  | Some handler =>
      let options := options_of arg1 in
      match register arg0 options handler (az_commands w) with
      | (inr command, cm) =>
          let command := Command.set_module (id w) command in
          Return (Some command)
            (set_commands (<[Command.name command := command]> (commands w))
               (set_az_commands cm w))
      | (inl e, cm) => Return None (logError e (set_az_commands cm w))
      end
  end.

(** The guild the wrapper finds in its argument. *)
Definition guild_of (param : Value) : option Guild :=
  let guild := match param with VGuild g => Some g | _ => None end in
  match param with
  | VObj (Some g) => Some g
  | _ => guild
  end.

(** The body of [wrapper] around [handler]: the calls of [handler] it
    makes, with their argument. *)
Definition wrapper (handler : Handler) (param : Value) : list (Handler * Value) :=
  match guild_of param with
  | Some guild => if isDisabledForGuild guild then [] else [(handler, param)]
  | None => [(handler, param)]
  end.

(** Calling a listener with [param]. *)
Definition call (l : Listener) (param : Value) : list (Handler * Value) :=
  match l with
  | Raw h => [(h, param)]
  | Wrapper _ h => wrapper h param
  end.

(** [emitter.emit(name, param)]: the calls of authors' functions made. *)
Definition emit (name : string) (param : Value) (em : EventEmitter.t)
  : list (Handler * Value) :=
  flat_map (fun l => call l param) (EventEmitter.listeners name em).

(** A change of the value at [key] in the data store, likewise. *)
Definition change (key : string) (v : Value) (w : World) : list (Handler * Value) :=
  flat_map (fun lv => call lv.1 lv.2) (ds_change key v (az_data w)).

(** Whether [nameParts[0]] selects the Discord client or the data store. *)
Definition is_discord (p : string) : bool :=
  bool_decide (p = "discord"%string) || bool_decide (p = "client"%string)
  || bool_decide (p = "bot"%string).

Definition is_datastore (p : string) : bool :=
  bool_decide (p = "db"%string) || bool_decide (p = "ds"%string)
  || bool_decide (p = "datastore"%string) || bool_decide (p = "database"%string).

Definition registerEvent (name : string) (handler : Handler) (w : World) : World :=
  let wrapper := Wrapper (next_id w) handler in
  let w := set_next_id (S (next_id w)) w in
  let nameParts := JsString.split_dot name in
  let head := hd EmptyString nameParts in
  if is_discord head then
    let evName := JsString.join_dot (tl nameParts) in
    let w := set_bot (EventEmitter.on evName wrapper (bot w)) w in
    set_events (JsArray.push
      {| name := name; evName := Some evName; handler := Some wrapper;
         sub := None; originalHandler := handler; type := Discord |}
      (events w)) w
  else if is_datastore head then
    let channelName := JsString.join_dot (tl nameParts) in
    let '(sub, d) := ds_subscribe channelName wrapper (az_data w) in
    let w := set_az_data d w in
    set_events (JsArray.push
      {| name := name; evName := None; handler := None;
         sub := Some sub; originalHandler := handler; type := DataStore |}
      (events w)) w
  else
    let w := set_az_events (EventEmitter.on name (Raw handler) (az_events w)) w in
    set_events (JsArray.push
      {| name := name; evName := None; handler := Some wrapper;
         sub := None; originalHandler := handler; type := Azarasi |}
      (events w)) w.

(** [emitter.removeListener(name, listener)] as [unregisterEvent] calls it:
    Node rejects a [listener] that is not a function, and an [undefined]
    name has no listeners. *)
Definition removeListener (name : option string) (listener : option Listener)
    (em : EventEmitter.t) : Error + EventEmitter.t :=
  match listener with
  | None => inl (TypeError "The listener argument must be of type function")
  | Some l =>
      match name with
      | None => inr em
      | Some n => inr (EventEmitter.removeListener n l em)
      end
  end.

(** [e.sub!.off!()]: only a subscription object has an [off] to call. *)
Definition sub_off (s : option SubRef) (d : DS) : Error + DS :=
  match s with
  | Some (SubObject s) => inr (ds_off s d)
  | Some (SubPromise _) => inl (TypeError "e.sub.off is not a function")
  | None => inl (TypeError "Cannot read properties of undefined")
  end.

(** The predicate of the [filter] in [unregisterEvent]. *)
Definition matches (name : string) (handler : option Handler) (e : ModuleEvent) : bool :=
  bool_decide (ModuleTs.name e = name)
  && (bool_decide (Some (originalHandler e) = handler) || bool_decide (handler = None)).

(** The body of the [forEach] in [unregisterEvent]. *)
Definition unregister_one (e : ModuleEvent) (w : World) : Outcome unit :=
  let detached :=
    match type e with
    | Discord =>
        match removeListener (evName e) (handler e) (bot w) with
        | inr em => inr (set_bot em w)
        | inl err => inl err
        end
    | DataStore =>
        match sub_off (sub e) (az_data w) with
        | inr d => inr (set_az_data d w)
        | inl err => inl err
        end
    | Azarasi =>
        match removeListener (Some (name e)) (handler e) (az_events w) with
        | inr em => inr (set_az_events em w)
        | inl err => inl err
        end
    end in
  match detached with
  | inl err => Throw err w
  | inr w =>
      let index := JsArray.indexOf e (events w) 0 in
      Return tt (set_events (JsArray.splice index (Some 1%Z) (events w)) w)
  end.

(** [arr.forEach(f)] for an [f] that may throw. *)
Fixpoint forEach (f : ModuleEvent -> World -> Outcome unit) (l : list ModuleEvent)
    (w : World) : Outcome unit :=
  match l with
  | [] => Return tt w
  | e :: l' =>
      match f e w with
      | Return _ w' => forEach f l' w'
      | Throw err w' => Throw err w'
      end
  end.

Definition unregisterEvent (name : string) (handler : option Handler) (w : World)
  : Outcome unit :=
  forEach unregister_one (List.filter (matches name handler) (events w)) w.

(** The world a method leaves, however it ends. *)
Definition world_of {A} (o : Outcome A) : World :=
  match o with
  | Return _ w => w
  | Throw _ w => w
  end.
End module.

Arguments Return {CM DS A} a w.
Arguments Throw {CM DS A} e w.
End ModuleTs.

(** ** [Azarasi.processMessage] ([src/index.js]) *)

Module AzarasiJs.
Record User := { id : string }.

Record Message := {
  author : User;
  content : string
}.

Section azarasi.
Context {CM : Type}.

(** [commands.processMessage], of the command manager. *)
Variable commands_processMessage : Message -> CM -> CM.

(** [blacklist] is [properties.blacklist], which may be missing;
    [dispatched] records the messages handed to [commands.processMessage]. *)
Record Azarasi := {
  blacklist : option (list string);
  commands : CM;
  dispatched : list Message
}.

Definition processMessage (msg : Message) (az : Azarasi) : Azarasi :=
  let blacklisted :=
    match blacklist az with
    | Some l => (0 <=? JsArray.indexOf (id (author msg)) l 0)%Z
    | None => false
    end in
  if blacklisted then az
  else {| blacklist := blacklist az;
          commands := commands_processMessage msg (commands az);
          dispatched := dispatched az ++ [msg] |}.
End azarasi.
End AzarasiJs.

(** ** The command manager *)

Module CommandManager.
(** ASCII lower case of a character. *)
Definition lower_ascii (c : ascii) : ascii :=
  let n := nat_of_ascii c in
  if (65 <=? n) && (n <=? 90) then ascii_of_nat (n + 32) else c.

Fixpoint toLowerCase (s : string) : string :=
  match s with
  | EmptyString => EmptyString
  | String c rest => String (lower_ascii c) (toLowerCase rest)
  end.

(** The name a trigger registers under. *)
Definition name_of (t : Command.Trigger) : string :=
  match t with
  | Command.Name s => toLowerCase s
  | Command.Pattern source => source
  end.

(** Modelled from the spec: [CommandManager.register] (the command manager,
    [./commands], is not among the sources).  The registry holds the
    commands in registration order; [register] fails with
    [DuplicateTrigger] when an equal literal name, compared without case,
    or a textually equal pattern is registered already. *)
Definition register (t : Command.Trigger) (o : Command.CommandOptions) (h : Handler)
    (cm : list Command.t) : (Error + Command.t) * list Command.t :=
  let n := name_of t in
  if existsb (fun c => bool_decide (Command.name c = n)) cm
  then (inl (Err "DuplicateTrigger"), cm)
  else
    let c := {| Command.name := n; Command.handler := h; Command.module := None |} in
    (inr c, cm ++ [c]).
End CommandManager.

(** ** Fixtures *)

Module Fixtures.
Import DataStores.

(** A store whose owner has set [ready], after [connect]. *)
Definition open_store (docs : Couch.Docs) : Couch.CouchDataStore :=
  {| Couch.db := docs; Couch.feed := true; Couch.subscriptions := [];
     Couch._emitter := []; Couch.connected := false; Couch.ready := true;
     Couch.heap := 0 |}.

(** A server that answers every post without id with the same id. *)
Definition uuid (_ : Couch.Docs) : string := "6e1295ed6c29495e54cc05947f18c8af".

(** A freshly constructed module [m] on a fresh instance. *)
Definition world (d : Couch.CouchDataStore)
  : @ModuleTs.World (list Command.t) Couch.CouchDataStore :=
  {| ModuleTs.id := "m"; ModuleTs.commands := ∅; ModuleTs.events := [];
     ModuleTs.az_commands := []; ModuleTs.az_events := ∅; ModuleTs.bot := ∅;
     ModuleTs.az_data := d; ModuleTs.az_log := []; ModuleTs.next_id := 0 |}.
(** Three subscriptions in the order they are made on [open_store]. *)
Definition sub_a : DataSubscription := {| ref := 0; key := "a"; handler := Raw 1 |}.
Definition sub_b : DataSubscription := {| ref := 1; key := "b"; handler := Raw 2 |}.
Definition sub_c : DataSubscription := {| ref := 2; key := "c"; handler := Raw 3 |}.

(** The module's world before anything is registered. *)
Definition w0 : @ModuleTs.World (list Command.t) Couch.CouchDataStore :=
  world (open_store ∅).

(** After [registerEvent('tick', h7)], an event of the framework's bus. *)
Definition w_tick := ModuleTs.registerEvent "tick" 7 w0.
Definition w_tick_off :=
  ModuleTs.world_of (ModuleTs.unregisterEvent "tick" (Some 7) w_tick).

(** After [registerEvent('discord.message', h7)]. *)
Definition w_message := ModuleTs.registerEvent "discord.message" 7 w0.
Definition w_message_off :=
  ModuleTs.world_of (ModuleTs.unregisterEvent "discord.message" (Some 7) w_message).

(** After [registerEvent('db.GuildData', h7)]. *)
Definition w_guilddata := ModuleTs.registerEvent "db.GuildData" 7 w0.
Definition w_guilddata_off :=
  ModuleTs.world_of (ModuleTs.unregisterEvent "db.GuildData" (Some 7) w_guilddata).

(** After [registerCommand('ping', h3)]. *)
Definition w_ping :=
  ModuleTs.world_of
    (ModuleTs.registerCommand CommandManager.register (Command.Name "ping")
       (ModuleTs.Function 3) None w0).

(** A module that is disabled in every guild, and one that is in none. *)
Definition disabled_everywhere (_ : Guild) : bool := true.
Definition disabled_nowhere (_ : Guild) : bool := false.

(** An instance with two blacklisted users, over a command manager that
    counts the messages it is given, and a message of one of them. *)
Definition count_message (_ : AzarasiJs.Message) (n : nat) : nat := S n.

Definition az_blacklist : @AzarasiJs.Azarasi nat :=
  {| AzarasiJs.blacklist := Some ["1001"; "1002"]%string;
     AzarasiJs.commands := 0; AzarasiJs.dispatched := [] |}.

Definition msg_1002 : AzarasiJs.Message :=
  {| AzarasiJs.author := {| AzarasiJs.id := "1002" |};
     AzarasiJs.content := "--ping" |}.
(** Two subscriptions, [off] of the first, then a change of its key. *)
Definition cancel_first : list Couch.Action :=
  [ Couch.ACall (Couch.CSubscribe "a" (Raw 1));
    Couch.ACall (Couch.CSubscribe "b" (Raw 2));
    Couch.AOff sub_a;
    Couch.AChange "a" (VNum 5) ].

(** Three subscriptions, [off] of the second, then a change of the key of
    the third. *)
Definition cancel_second : list Couch.Action :=
  [ Couch.ACall (Couch.CSubscribe "a" (Raw 1));
    Couch.ACall (Couch.CSubscribe "b" (Raw 2));
    Couch.ACall (Couch.CSubscribe "c" (Raw 3));
    Couch.AOff sub_b;
    Couch.AChange "c" (VNum 5) ].

(** [set] of a key that has no document, then [get] of it. *)
Definition set_then_get : list Couch.Action :=
  [ Couch.ACall (Couch.CSet "k" (VNum 5));
    Couch.ACall (Couch.CGet "k" false) ].
End Fixtures.

(** ** [Locale.gen] and [Locale.ugen] ([locales.js]) *)

Module Locale.
(** A string is the sequence of its UTF-8 bytes.  The patterns below are
    ASCII, and an ASCII byte of UTF-8 text is always an ASCII character,
    so matching bytes is matching characters. *)

(** [\d]. *)
Definition is_digit (c : ascii) : bool :=
  let n := nat_of_ascii c in (48 <=? n) && (n <=? 57).

(** The longest run of digits at the head of [s], and what follows it. *)
Fixpoint span_digits (s : string) : string * string :=
  match s with
  | EmptyString => (EmptyString, EmptyString)
  | String c rest =>
      if is_digit c
      then let '(ds, tail) := span_digits rest in (String c ds, tail)
      else (EmptyString, s)
  end.

(** Whether [/\{(\d+)\}/] matches where [s] follows an opening brace: the
    digits captured. *)
Definition placeholder (s : string) : option string :=
  match span_digits s with
  | (String d ds, String c _) =>
      if decide (c = "}"%char) then Some (String d ds) else None
  | _ => None
  end.

(** The number a string of digits writes. *)
Fixpoint number (acc : N) (ds : string) : N :=
  match ds with
  | EmptyString => acc
  | String c rest => number (acc * 10 + (N_of_ascii c - 48))%N rest
  end.

(** Whether [ds] is the name of an index property: no leading zero. *)
Definition canonical (ds : string) : bool :=
  match ds with
  | String c (String _ _) => negb (bool_decide (c = "0"%char))
  | String _ EmptyString => true
  | EmptyString => false
  end.

(** [arguments[index]] as the replacement text; [args] are the arguments
    by their string conversion, and a missing one reads [undefined]. *)
Definition argument (args : list string) (index : string) : string :=
  if canonical index && (number 0 index <? N.of_nat (length args))%N
  then default "undefined"%string (args !! N.to_nat (number 0 index))
  else "undefined"%string.

(** [s.replace(/\{(\d+)\}/g, (m, index) => arguments[index])]; [skip] counts
    the characters of a match still to pass over. *)
Fixpoint substitute (args : list string) (skip : nat) (s : string) : string :=
  match s with
  | EmptyString => EmptyString
  | String c rest =>
      match skip with
      | S k => substitute args k rest
      | 0 =>
          if decide (c = "{"%char) then
            match placeholder rest with
            | Some index =>
                (argument args index
                 ++ substitute args (String.length index + 1) rest)%string
            | None => String c (substitute args 0 rest)
            end
          else String c (substitute args 0 rest)
      end
  end.

(** Case folding of the [i] flag, on ASCII letters. *)
Definition fold_case (c : ascii) : ascii :=
  let n := nat_of_ascii c in
  if (65 <=? n) && (n <=? 90) then ascii_of_nat (n + 32) else c.

Definition eqb_ci (a b : ascii) : bool := bool_decide (fold_case a = fold_case b).

(** Whether the literal [pat] matches at the head of [s], ignoring case. *)
Fixpoint prefix_ci (pat s : string) : bool :=
  match pat with
  | EmptyString => true
  | String p pat' =>
      match s with
      | EmptyString => false
      | String c s' => eqb_ci p c && prefix_ci pat' s'
      end
  end.

(** Whether [pat] matches somewhere in [s], ignoring case. *)
Fixpoint occurs_ci (pat s : string) : bool :=
  prefix_ci pat s
  || match s with
     | EmptyString => false
     | String _ s' => occurs_ci pat s'
     end.

(** [s.replace(/pat/gi, repl)] for a literal, non-empty [pat]. *)
Fixpoint replace_ci (pat repl : string) (skip : nat) (s : string) : string :=
  match s with
  | EmptyString => EmptyString
  | String c rest =>
      match skip with
      | S k => replace_ci pat repl k rest
      | 0 =>
          if prefix_ci pat s
          then (repl ++ replace_ci pat repl (String.length pat - 1) rest)%string
          else String c (replace_ci pat repl 0 rest)
      end
  end.

(** U+200B, the zero width space. *)
Definition zwsp : string :=
  String (ascii_of_nat 226) (String (ascii_of_nat 128)
    (String (ascii_of_nat 139) EmptyString)).

(** [.replace(/@everyone/gi, '@\u200beveryone').replace(/@here/gi, '@\u200bhere')]. *)
Definition escape (s : string) : string :=
  replace_ci "@here" ("@" ++ zwsp ++ "here")
    0 (replace_ci "@everyone" ("@" ++ zwsp ++ "everyone") 0 s).

(** [ugen(template, ...rest)]; [arguments] is [template :: rest]. *)
Definition ugen (template : string) (rest : list string) : string :=
  substitute (template :: rest) 0 template.

(** [gen(template, ...rest)]. *)
Definition gen (template : string) (rest : list string) : string :=
  escape (substitute (template :: rest) 0 template).
(** Whether no character of [s] is an at sign. *)
Fixpoint no_at (s : string) : bool :=
  match s with
  | EmptyString => true
  | String c s' => negb (eqb_ci "@" c) && no_at s'
  end.

(** Whether no character of [s] is an opening brace. *)
Fixpoint no_brace (s : string) : bool :=
  match s with
  | EmptyString => true
  | String c s' => negb (bool_decide (c = "{"%char)) && no_brace s'
  end.

(** Whether [s] is digits only. *)
Fixpoint all_digits (s : string) : bool :=
  match s with
  | EmptyString => true
  | String c s' => is_digit c && all_digits s'
  end.

(** Whether [p1] matches at every place of [s] where [p2] does. *)
Fixpoint covers (p1 p2 s : string) : bool :=
  implb (prefix_ci p2 s) (prefix_ci p1 s)
  && match s with
     | EmptyString => true
     | String _ s' => covers p1 p2 s'
     end.
End Locale.

(** ** More fixtures *)

Module Examples.
Import DataStores Fixtures.

(** A ready store over a database with one document. *)
Definition stored : Couch.CouchDataStore :=
  open_store {[ "k"%string := (1, VNum 1) ]}.

(** A ready store with three subscriptions. *)
Definition table : Couch.CouchDataStore :=
  Couch.set_subscriptions [sub_a; sub_b; sub_c] (open_store ∅).

(** Two handlers bound to the same event of the Discord client, and the
    world after the first is unregistered. *)
Definition w_pair :=
  ModuleTs.registerEvent "discord.message" 8
    (ModuleTs.registerEvent "discord.message" 7 w0).
Definition w_pair_off :=
  ModuleTs.world_of (ModuleTs.unregisterEvent "discord.message" (Some 7) w_pair).

(** A message of a user who is not blacklisted. *)
Definition msg_2000 : AzarasiJs.Message :=
  {| AzarasiJs.author := {| AzarasiJs.id := "2000" |};
     AzarasiJs.content := "--ping" |}.
End Examples.

(** * Properties *)

(** ** Arrays *)

Module JsArrayFacts.
Import JsArray.
Section facts.
Context {A : Type} `{EqDecision A}.
Implicit Types (x : A) (l pre : list A) (i : Z).

Lemma scan_absent x l i : x ∉ l -> scan x l i = (-1)%Z.
Proof.
  revert i. induction l as [|y l IH]; intros i Hx; simpl; [done|].
  apply not_elem_of_cons in Hx as [Hne Hx].
  destruct (decide (y = x)) as [->|_]; [done|]. by apply IH.
Qed.

Lemma scan_first x pre l i :
  x ∉ pre -> scan x (pre ++ x :: l) i = (i + Z.of_nat (length pre))%Z.
Proof.
  revert i. induction pre as [|y pre IH]; intros i Hx; simpl.
  - destruct (decide (x = x)); [lia|done].
  - apply not_elem_of_cons in Hx as [Hne Hx].
    destruct (decide (y = x)) as [->|_]; [done|].
    rewrite IH by done. lia.
Qed.

Lemma scan_present x l i : x ∈ l -> (i <= scan x l i)%Z.
Proof.
  intros Hx. apply list_elem_of_split in Hx as (pre & post & ->).
  revert i. induction pre as [|y pre IH]; intros i; simpl.
  - destruct (decide (x = x)); [lia|done].
  - destruct (decide (y = x)); [lia|]. specialize (IH (i + 1)%Z). lia.
Qed.

Lemma indexOf_present x l : x ∈ l -> (0 <= indexOf x l 0)%Z.
Proof. intros Hx. unfold indexOf. rewrite drop_0. by apply scan_present. Qed.

Lemma indexOf_first x pre l :
  x ∉ pre -> indexOf x (pre ++ x :: l) 0 = Z.of_nat (length pre).
Proof. intros Hx. unfold indexOf. rewrite drop_0, scan_first by done. lia. Qed.

(** [splice(i, 1)] at the index of an element takes out that element. *)
Lemma splice_one pre x l :
  splice (Z.of_nat (length pre)) (Some 1%Z) (pre ++ x :: l) = pre ++ l.
Proof.
  unfold splice, relative_start.
  destruct (Z.ltb_spec (Z.of_nat (length pre)) 0) as [Hneg|_]; [lia|].
  rewrite length_app. simpl.
  replace (Z.to_nat (Z.min (Z.of_nat (length pre))
             (Z.of_nat (length pre + S (length l))))) with (length pre) by lia.
  replace (Z.to_nat (Z.min (Z.max 1 0)
             (Z.of_nat (length pre + S (length l) - length pre)))) with 1 by lia.
  rewrite take_app_length.
  replace (length pre + 1) with (length pre + 1 + 0) by lia.
  rewrite <- Nat.add_assoc, drop_app_add. done.
Qed.

(** [splice(i)] for an index of the array keeps what is before it. *)
Lemma splice_rest i l :
  (0 <= i)%Z -> splice i None l = take (Z.to_nat i) l.
Proof.
  intros Hi. unfold splice, relative_start.
  destruct (Z.ltb_spec i 0) as [Hneg|_]; [lia|].
  set (s := Z.to_nat (Z.min i (Z.of_nat (length l)))).
  assert (Hs : s <= length l) by (subst s; lia).
  rewrite drop_ge by lia. rewrite app_nil_r.
  destruct (decide (Z.to_nat i <= length l)) as [Hle|Hgt].
  - subst s. f_equal. lia.
  - rewrite !take_ge by (subst s; lia). done.
Qed.

(** [splice(-1)] drops the last element. *)
Lemma splice_minus_one l : splice (-1)%Z None l = take (length l - 1) l.
Proof.
  unfold splice, relative_start. simpl.
  set (s := Z.to_nat (Z.max (Z.of_nat (length l) + -1) 0)).
  assert (Hs : s = length l - 1) by (subst s; lia).
  rewrite Hs. rewrite drop_ge by lia. by rewrite app_nil_r.
Qed.

(** Taking out, one after the other, the elements that satisfy [p], each
    at its [indexOf], leaves those that do not. *)
Lemma remove_filtered (p : A -> bool) pre l :
  (forall x, x ∈ pre -> p x = false) ->
  fold_left (fun acc e => splice (indexOf e acc 0) (Some 1%Z) acc)
    (List.filter p l) (pre ++ l)
  = pre ++ List.filter (fun x => negb (p x)) l.
Proof.
  revert pre. induction l as [|x l IH]; intros pre Hpre; simpl; [done|].
  destruct (p x) eqn:Hpx; simpl.
  - rewrite indexOf_first, splice_one.
    + by apply IH.
    + intros Hin. apply Hpre in Hin. congruence.
  - replace (pre ++ x :: l) with ((pre ++ [x]) ++ l) by (by rewrite <- app_assoc).
    rewrite IH.
    + by rewrite <- app_assoc.
    + intros y Hy. apply elem_of_app in Hy as [Hy|Hy]; [by apply Hpre|].
      apply list_elem_of_singleton in Hy. by subst.
Qed.

Lemma filter_negb_filter (p : A -> bool) l :
  List.filter p (List.filter (fun x => negb (p x)) l) = [].
Proof.
  induction l as [|x l IH]; simpl; [done|].
  destruct (p x) eqn:Hpx; simpl; [done|]. by rewrite Hpx.
Qed.
End facts.
End JsArrayFacts.

(** ** Event bindings of a module *)

Module ModuleFacts.
Import DataStores ModuleTs.
Section facts.
Context {CM DS : Type} `{IDataStore DS}.
Implicit Types (w : @World CM DS) (e : ModuleEvent).

(** One round of the [forEach] touches [events] only through its [splice]. *)
Lemma unregister_one_events e w w' :
  unregister_one e w = Return tt w' ->
  events w' = JsArray.splice (JsArray.indexOf e (events w) 0) (Some 1%Z) (events w).
Proof.
  unfold unregister_one. intros Hret.
  destruct (type e).
  - destruct (removeListener (Some (name e)) (handler e) (az_events w));
      inversion Hret; done.
  - destruct (removeListener (evName e) (handler e) (bot w));
      inversion Hret; done.
  - destruct (sub_off (sub e) (az_data w)); inversion Hret; done.
Qed.

Lemma forEach_events l w w' :
  forEach unregister_one l w = Return tt w' ->
  events w' =
    fold_left (fun acc e => JsArray.splice (JsArray.indexOf e acc 0) (Some 1%Z) acc)
      l (events w).
Proof.
  revert w. induction l as [|e l IH]; intros w Hret; simpl in *.
  - by inversion Hret.
  - destruct (unregister_one e w) as [[] w1|err w1] eqn:Hone; [|done].
    apply unregister_one_events in Hone. rewrite <- Hone. by apply IH.
Qed.

(** A call of [unregisterEvent] that returns leaves exactly the bindings
    its filter did not select. *)
Lemma unregisterEvent_events name handler w w' :
  unregisterEvent name handler w = Return tt w' ->
  events w' = List.filter (fun e => negb (matches name handler e)) (events w).
Proof.
  unfold unregisterEvent. intros Hret.
  apply forEach_events in Hret. rewrite Hret.
  apply (JsArrayFacts.remove_filtered (matches name handler) [] (events w)).
  intros x Hx. by apply elem_of_nil in Hx.
Qed.

(** C8: [Module.unregisterEvent] is idempotent.  Whatever the name and the
    optional handler, once a call has returned, the same call again returns
    too, without an exception, and leaves the module's binding list, the
    emitters and the data store as they are. *)
Theorem unregisterEvent_idempotent name handler w w' :
  unregisterEvent name handler w = Return tt w' ->
  unregisterEvent name handler w' = Return tt w'.
Proof.
  intros Hret. apply unregisterEvent_events in Hret.
  unfold unregisterEvent. rewrite Hret.
  by rewrite JsArrayFacts.filter_negb_filter.
Qed.
(** *** Commands *)

Section commands.
Variable register :
  Command.Trigger -> Command.CommandOptions -> Handler -> CM -> (Error + Command.t) * CM.

(** C9: when the registration in the command manager throws,
    [registerCommand] returns [false] instead of throwing, the error is
    handed to [logError], and the module's [commands] map is as before. *)
Theorem registerCommand_register_throws arg0 arg1 arg2 h err cm w :
  handler_of arg1 arg2 = Some h ->
  register arg0 (options_of arg1) h (az_commands w) = (inl err, cm) ->
  exists w',
    registerCommand register arg0 arg1 arg2 w = Return None w' /\
    commands w' = commands w /\
    az_log w' = az_log w ++ [err].
Proof.
  intros Hh Hreg. unfold registerCommand. rewrite Hh, Hreg.
  eexists. split; [reflexivity|]. split; reflexivity.
Qed.

(** X15: when the registration in the command manager succeeds, the
    command is entered in the module's [commands] under its name, with
    the module as its owner. *)
Lemma registerCommand_registers arg0 arg1 arg2 h c cm w :
  handler_of arg1 arg2 = Some h ->
  register arg0 (options_of arg1) h (az_commands w) = (inr c, cm) ->
  commands (world_of (registerCommand register arg0 arg1 arg2 w)) !! Command.name c
  = Some (Command.set_module (id w) c).
Proof.
  intros Hh Hreg. unfold registerCommand. rewrite Hh, Hreg. simpl.
  by rewrite lookup_insert_eq.
Qed.
End commands.

(** *** The guard *)

Section guard.
Variable isDisabledForGuild : Guild -> bool.

(** The wrapper does not call through for a guild, or a payload with a
    guild, in which the module is disabled. *)
Lemma wrapper_skips_disabled h g :
  isDisabledForGuild g = true ->
  wrapper isDisabledForGuild h (VGuild g) = [] /\
  wrapper isDisabledForGuild h (VObj (Some g)) = [].
Proof. intros Hd. unfold wrapper. simpl. by rewrite Hd. Qed.

Lemma wrapper_calls_enabled h g :
  isDisabledForGuild g = false ->
  wrapper isDisabledForGuild h (VGuild g) = [(h, VGuild g)].
Proof. intros Hd. unfold wrapper. simpl. by rewrite Hd. Qed.
End guard.

(** *** What [registerEvent] attaches *)

(** For a name of the Discord client the client gets the wrapper. *)
Lemma registerEvent_discord name h w :
  is_discord (hd EmptyString (JsString.split_dot name)) = true ->
  EventEmitter.listeners (JsString.join_dot (tl (JsString.split_dot name)))
    (bot (registerEvent name h w))
  = EventEmitter.listeners (JsString.join_dot (tl (JsString.split_dot name))) (bot w)
    ++ [Wrapper (next_id w) h].
Proof.
  intros Hd. unfold registerEvent. rewrite Hd. simpl.
  unfold EventEmitter.on, EventEmitter.listeners at 1.
  by rewrite lookup_insert_eq.
Qed.

(** For any other name that is not one of the data store, the framework's
    bus gets the handler itself, while the binding records the wrapper. *)
Lemma registerEvent_internal name h w :
  is_discord (hd EmptyString (JsString.split_dot name)) = false ->
  is_datastore (hd EmptyString (JsString.split_dot name)) = false ->
  EventEmitter.listeners name (az_events (registerEvent name h w))
  = EventEmitter.listeners name (az_events w) ++ [Raw h] /\
  events (registerEvent name h w)
  = events w ++ [ {| name := name; evName := None;
                     handler := Some (Wrapper (next_id w) h); sub := None;
                     originalHandler := h; type := Azarasi |} ].
Proof.
  intros Hd Hs. unfold registerEvent. rewrite Hd, Hs. simpl. split; [|done].
  unfold EventEmitter.on, EventEmitter.listeners at 1.
  by rewrite lookup_insert_eq.
Qed.
(** A listener other than the one removed stays on the emitter. *)
Lemma remove_last_other (f g : Listener) (l : list Listener) :
  g <> f -> g ∈ l -> g ∈ EventEmitter.remove_last f l.
Proof.
  intros Hne. induction l as [|x l IH]; intros Hg; simpl; [done|].
  apply elem_of_cons in Hg as [->|Hg].
  - destruct (decide (x = f)); [done|]. apply list_elem_of_here.
  - destruct (decide (x = f)) as [->|_].
    + case_bool_decide; [|done]. apply list_elem_of_further. by apply IH.
    + apply list_elem_of_further. by apply IH.
Qed.

(** On a module without bindings, [registerEvent] of an event of the
    framework's bus followed by [unregisterEvent] of it returns with the
    binding gone and the handler still listening. *)
Lemma register_unregister_internal name h w :
  is_discord (hd EmptyString (JsString.split_dot name)) = false ->
  is_datastore (hd EmptyString (JsString.split_dot name)) = false ->
  events w = [] ->
  exists w',
    unregisterEvent name (Some h) (registerEvent name h w) = Return tt w' /\
    events w' = [] /\
    Raw h ∈ EventEmitter.listeners name (az_events w').
Proof.
  intros Hd Hs Hev. unfold registerEvent. rewrite Hd, Hs. cbn -[EventEmitter.on].
  rewrite Hev. unfold unregisterEvent, JsArray.push, matches. cbn -[EventEmitter.on].
  rewrite !bool_decide_eq_true_2 by done. cbn -[EventEmitter.on].
  unfold unregister_one. cbn -[EventEmitter.on EventEmitter.removeListener].
  unfold JsArray.indexOf. cbn -[EventEmitter.on EventEmitter.removeListener].
  destruct (decide _) as [_|Hne]; [|done].
  eexists. split; [reflexivity|]. split; [reflexivity|].
  cbn -[EventEmitter.on EventEmitter.removeListener].
  unfold EventEmitter.removeListener, EventEmitter.on.
  rewrite lookup_insert_eq. unfold EventEmitter.listeners at 1.
  rewrite lookup_insert_eq. simpl.
  apply remove_last_other; [done|].
  apply elem_of_app. right. apply list_elem_of_here.
Qed.
End facts.
End ModuleFacts.

(** ** The CouchDB data store *)

Module CouchFacts.
Import DataStores Couch.
Section facts.
Variable uuid : Docs -> string.
Implicit Types (st : CouchDataStore) (k : string) (v : Value).

(** *** The gate *)

Lemma ensureReady_not_ready c st :
  ready st = false ->
  ensureReady c st = (Pending, set__emitter (_emitter st ++ [c]) st).
Proof. intros Hr. unfold ensureReady. by rewrite Hr. Qed.

Lemma exec_not_ready c st :
  ready st = false ->
  (exec uuid c st).1 = Pending /\ ready (exec uuid c st).2 = false.
Proof.
  intros Hr.
  destruct c; cbn [exec]; unfold lift, set, del, get, subscribe, await;
    rewrite ensureReady_not_ready by done; done.
Qed.

Lemma step_not_ready a st :
  ready st = false ->
  ready (step uuid a st).2 = false /\
  (forall c, a = ACall c -> (step uuid a st).1 = Pending).
Proof.
  intros Hr. destruct a as [|c|s|id v]; cbn [step].
  - split; [done|]. intros c Hc. discriminate Hc.
  - destruct (exec_not_ready c st Hr) as [Hp Hr']. split; [done|]. by intros c' _.
  - split; [done|]. intros c Hc. discriminate Hc.
  - split; [done|]. intros c Hc. discriminate Hc.
Qed.

Lemma run_not_ready acts st :
  ready st = false ->
  ready (run uuid acts st).2 = false /\
  all_deferred acts (run uuid acts st).1 = true.
Proof.
  revert st. induction acts as [|a acts IH]; intros st Hr; simpl; [done|].
  destruct (step_not_ready a st Hr) as [Hr' Hp].
  destruct (step uuid a st) as [r st1] eqn:Hstep. simpl in *.
  destruct (IH st1 Hr') as [Hr'' Hd].
  destruct (run uuid acts st1) as [rs st2] eqn:Hrun. simpl in *.
  split; [done|].
  destruct a as [|c|s|id v]; try done.
  rewrite (Hp c eq_refl). done.
Qed.

(** X14: no method releases a call that waits in [_emitter]: whatever is done
    to the store, in whatever state, the waiting calls stay and at most
    grow in number. *)
Lemma waiters_never_released a st :
  exists l, _emitter (step uuid a st).2 = _emitter st ++ l.
Proof.
  destruct a as [|c|s|id v]; cbn [step].
  - exists []. by rewrite app_nil_r.
  - destruct c; cbn [exec];
      unfold lift, set, del, get, subscribe, await, try_await, ensureReady,
        request, resolve, db_get, db_insert, db_destroy;
      repeat case_match; simplify_eq; simpl;
      first [ by exists []; rewrite app_nil_r | by eexists ].
  - exists []. by rewrite app_nil_r.
  - exists []. by rewrite app_nil_r.
Qed.

(** C5 (the code falls short of it): a method called before the store is
    ready is deferred by [ensureReady], but nothing opens the gate.  From a
    new store, whatever is done afterwards ([connect] included), [ready]
    stays false and every call of [get], [set], [del] and [subscribe] is
    still pending. *)
Theorem gate_never_opens (docs : Docs) (acts : list Action) :
  ready (run uuid acts (new docs)).2 = false /\
  all_deferred acts (run uuid acts (new docs)).1 = true.
Proof. by apply run_not_ready. Qed.

(** C7 (the code falls short of it): [get] answers a key that has no
    document with [null] only once it is past [ensureReady], and nothing
    opens that gate.  On every store reached from a new one, whatever has
    been done to it ([connect] included), [get] of any key, raw or not,
    stays pending: it returns neither [null] nor [{ val: null }]. *)
Theorem get_stays_pending (docs : Docs) (acts : list Action) k raw :
  (get k raw (run uuid acts (new docs)).2).1 = Pending.
Proof.
  destruct (run_not_ready acts (new docs) eq_refl) as [Hr _].
  unfold get, await. by rewrite ensureReady_not_ready.
Qed.

(** *** [get], [set] and [del] *)

Lemma get_ready k raw st :
  ready st = true ->
  get k raw st =
    (Fulfilled match db st !! k with
               | Some (r, v) =>
                   if raw then RawDoc {| _id := Some k; _rev := Some r; val := v |}
                   else Plain v
               | None =>
                   if raw then RawDoc {| _id := None; _rev := None; val := VNull |}
                   else Plain VNull
               end, st).
Proof.
  intros Hr. unfold get, await, try_await, ensureReady, request, db_get, resolve.
  rewrite Hr. destruct (db st !! k) as [[r v]|]; done.
Qed.

Lemma get_never_rejects k raw st e : (get k raw st).1 <> Rejected e.
Proof.
  unfold get, await, try_await, ensureReady, request, db_get, resolve.
  destruct (ready st); [|done].
  destruct (db st !! k) as [[r v]|]; done.
Qed.

(** Past the gate, [get] of a document id that has no document resolves
    to [null], or to [{ val: null }] in raw mode. *)
Lemma get_missing_docid k raw st :
  ready st = true -> CouchKeys.is_docid k = true -> db st !! k = None ->
  get k raw st =
    (Fulfilled (if raw then RawDoc {| _id := None; _rev := None; val := VNull |}
                else Plain VNull), st).
Proof. intros Hr _ Hk. rewrite get_ready by done. by rewrite Hk. Qed.

(** On a key that has a document, [set] replaces its value. *)
Lemma set_stored_key k v r v0 st :
  ready st = true -> db st !! k = Some (r, v0) ->
  set uuid k v st = (Fulfilled "OK"%string, set_db (<[k := (S r, v)]> (db st)) st).
Proof.
  intros Hr Hk. unfold set, await. unfold ensureReady at 1. rewrite Hr.
  rewrite get_ready by done. rewrite Hk. simpl. unfold db_insert. simpl.
  rewrite Hk. destruct (decide (Some r = Some r)); done.
Qed.

(** X6: on a ready store, [set] of a key that has a document, then [get]
    of the key, gives the value set. *)
Lemma set_get_stored_key k v r v0 st :
  ready st = true -> db st !! k = Some (r, v0) ->
  (get k false (set uuid k v st).2).1 = Fulfilled (Plain v).
Proof.
  intros Hr Hk. rewrite (set_stored_key k v r v0) by done. simpl.
  rewrite get_ready by done. simpl. by rewrite lookup_insert_eq.
Qed.

(** On a key that has no document, [set] posts [{ val }] without an [_id]:
    the value lands under an id of the server's choosing and [get] still
    finds nothing at the key. *)
Lemma set_new_key k v st :
  ready st = true -> db st !! k = None -> db st !! uuid (db st) = None ->
  set uuid k v st
  = (Fulfilled "OK"%string, set_db (<[uuid (db st) := (1, v)]> (db st)) st).
Proof.
  intros Hr Hk Hu. unfold set, await. unfold ensureReady at 1. rewrite Hr.
  rewrite get_ready by done. rewrite Hk. simpl. unfold db_insert. simpl.
  by rewrite Hu.
Qed.

Lemma set_get_new_key k v st :
  ready st = true -> db st !! k = None -> db st !! uuid (db st) = None ->
  uuid (db st) <> k ->
  (get k false (set uuid k v st).2).1 = Fulfilled (Plain VNull).
Proof.
  intros Hr Hk Hu Hne. rewrite set_new_key by done. simpl.
  rewrite get_ready by done. simpl. rewrite lookup_insert_ne by done.
  by rewrite Hk.
Qed.

(** X7: on a ready store, [del] of a key that has a document returns
    [OK], and [get] of the key then gives [null]. *)
Lemma del_get_stored_key k r v0 st :
  ready st = true -> db st !! k = Some (r, v0) ->
  (del k st).1 = Fulfilled "OK"%string /\
  (get k false (del k st).2).1 = Fulfilled (Plain VNull).
Proof.
  intros Hr Hk. unfold del, await. rewrite get_ready by done. rewrite Hk. simpl.
  unfold db_destroy. rewrite Hk. destruct (decide (Some r = Some r)); [|done].
  simpl. split; [done|]. rewrite get_ready by done. simpl.
  by rewrite lookup_delete_eq.
Qed.

(** X8: on a ready store, [del] of a document id (a name that is not
    empty and does not start with an underscore) that has no document is
    rejected with the server's 404 and leaves the store as it is. *)
Lemma del_missing_key k st :
  ready st = true -> CouchKeys.is_docid k = true -> db st !! k = None ->
  del k st = (Rejected (HttpError 404), st).
Proof.
  intros Hr _ Hk. unfold del, await. rewrite get_ready by done. rewrite Hk. simpl.
  unfold db_destroy. by rewrite Hk.
Qed.

(** *** Subscriptions *)

(** [off] of the subscription at index 0, or of one that is not in the
    table, drops the last entry. *)
Lemma off_not_found s st :
  s ∉ drop 1 (subscriptions st) ->
  subscriptions (off s st)
  = take (length (subscriptions st) - 1) (subscriptions st).
Proof.
  intros Hs. unfold off. simpl. unfold JsArray.indexOf.
  rewrite JsArrayFacts.scan_absent by done.
  apply JsArrayFacts.splice_minus_one.
Qed.

(** X13: [off] of a subscription at an index from 1 on drops it together
    with every subscription registered after it. *)
Lemma off_found s0 pre s post st :
  subscriptions st = s0 :: pre ++ s :: post -> s ∉ pre ->
  subscriptions (off s st) = s0 :: pre.
Proof.
  intros Hsubs Hs. unfold off. simpl. unfold JsArray.indexOf.
  rewrite Hsubs. simpl. rewrite drop_0.
  rewrite JsArrayFacts.scan_first by done.
  rewrite JsArrayFacts.splice_rest by lia.
  replace (Z.to_nat (Z.of_nat 1 + Z.of_nat (length pre))) with (S (length pre)) by lia.
  simpl. f_equal. by rewrite take_app_length.
Qed.
(** With other subscriptions in the table, [off] of the first one leaves it
    there, and a change of its key still calls its handler. *)
Lemma off_first_survives s s1 rest v st :
  subscriptions st = s :: s1 :: rest -> s ∉ s1 :: rest ->
  s ∈ subscriptions (off s st) /\
  (handler s, v) ∈ on_change (key s) v (off s st).
Proof.
  intros Hsubs Hs.
  assert (Hoff : subscriptions (off s st) = s :: take (length rest) (s1 :: rest)).
  { rewrite off_not_found; rewrite Hsubs; [|exact Hs].
    replace (length (s :: s1 :: rest) - 1) with (S (length rest)) by (simpl; lia).
    done. }
  split; [rewrite Hoff; apply list_elem_of_here|].
  unfold on_change. rewrite Hoff. simpl.
  rewrite bool_decide_eq_true_2 by done. simpl. apply list_elem_of_here.
Qed.
End facts.
End CouchFacts.


(** ** [Azarasi.processMessage] *)

Module AzarasiFacts.
Import AzarasiJs.
Section facts.
Context {CM : Type}.
Variable commands_processMessage : Message -> CM -> CM.
Implicit Types (az : @Azarasi CM) (msg : Message).

(** C10: a message whose author's id is in [properties.blacklist] makes
    [processMessage] return with the instance untouched:
    [commands.processMessage] is not called, so the command manager is as
    before and nothing is added to the record of dispatched messages. *)
Theorem processMessage_blacklisted msg az l :
  blacklist az = Some l ->
  id (author msg) ∈ l ->
  processMessage commands_processMessage msg az = az.
Proof.
  intros Hl Hin. unfold processMessage. rewrite Hl.
  apply JsArrayFacts.indexOf_present in Hin.
  destruct (Z.leb_spec 0 (JsArray.indexOf (id (author msg)) l 0)); [done|lia].
Qed.

(** X24: a message whose author is not blacklisted, or any message when
    there is no blacklist, is handed to [commands.processMessage] once. *)
Lemma processMessage_dispatches msg az :
  (forall l, blacklist az = Some l -> id (author msg) ∉ l) ->
  processMessage commands_processMessage msg az
  = {| blacklist := blacklist az;
       commands := commands_processMessage msg (commands az);
       dispatched := dispatched az ++ [msg] |}.
Proof.
  intros Hout. unfold processMessage.
  destruct (blacklist az) as [l|] eqn:Hl; [|done].
  unfold JsArray.indexOf. rewrite drop_0.
  rewrite JsArrayFacts.scan_absent by (by apply Hout). done.
Qed.
End facts.
End AzarasiFacts.

(** ** The claims on concrete runs *)

Module Scenarios.
Import DataStores Fixtures.

(** *** Data store *)

(** C1 (the code falls short of it): [off] looks its subscription up from
    index 1 on and splices from whatever [indexOf] answers.  With two
    subscriptions, [off] of the first removes the second one, and a later
    change of the first one's key still calls its handler. *)
Theorem off_keeps_first_subscription :
  (Couch.run uuid cancel_first (open_store ∅)).1
  = [ Fulfilled (Couch.RSub sub_a);
      Fulfilled (Couch.RSub sub_b);
      Fulfilled Couch.RUnit;
      Fulfilled (Couch.RCalled [(Raw 1, VNum 5)]) ].
Proof. vm_compute. reflexivity. Qed.

(** C6 (the code falls short of it): with three subscriptions, [off] of the
    second removes the third as well; only the first is left in the table
    and a change of the third one's key calls nothing. *)
Theorem off_drops_later_subscriptions :
  (Couch.run uuid cancel_second (open_store ∅)).1
  = [ Fulfilled (Couch.RSub sub_a);
      Fulfilled (Couch.RSub sub_b);
      Fulfilled (Couch.RSub sub_c);
      Fulfilled Couch.RUnit;
      Fulfilled (Couch.RCalled []) ] /\
  Couch.subscriptions (Couch.run uuid cancel_second (open_store ∅)).2 = [sub_a].
Proof. vm_compute. split; reflexivity. Qed.

(** C4 (the code falls short of it): [set] of a key that has no document
    succeeds, but the value is stored under an id of the server's, and the
    [get] that follows resolves to [null]. *)
Theorem set_new_key_is_lost :
  (Couch.run uuid set_then_get (open_store ∅)).1
  = [ Fulfilled (Couch.ROk "OK"); Fulfilled (Couch.RGet (Couch.Plain VNull)) ] /\
  Couch.db (Couch.run uuid set_then_get (open_store ∅)).2 !! "k"%string = None /\
  Couch.db (Couch.run uuid set_then_get (open_store ∅)).2 !! uuid ∅ = Some (1, VNum 5).
Proof. vm_compute. repeat split; reflexivity. Qed.

(** *** Event bindings *)

(** C2 (the code falls short of it): for an event of the framework's bus
    [registerEvent] attaches the handler itself and [unregisterEvent]
    removes the wrapper, which was never attached.  The binding is gone
    from [events], the handler is still on the bus and is called by the
    next event. *)
Theorem unregisterEvent_leaves_bus_listener :
  ModuleTs.unregisterEvent "tick" (Some 7) w_tick = ModuleTs.Return tt w_tick_off /\
  ModuleTs.events w_tick_off = [] /\
  EventEmitter.listeners "tick" (ModuleTs.az_events w_tick_off) = [Raw 7] /\
  ModuleTs.emit disabled_nowhere "tick" (VNum 1) (ModuleTs.az_events w_tick_off)
  = [(7, VNum 1)].
Proof. vm_compute. repeat split; reflexivity. Qed.

(** For an event of the Discord client the pair does detach the handler. *)
Lemma unregisterEvent_detaches_discord :
  ModuleTs.unregisterEvent "discord.message" (Some 7) w_message
  = ModuleTs.Return tt w_message_off /\
  ModuleTs.emit disabled_nowhere "message" (VNum 1) (ModuleTs.bot w_message) = [(7, VNum 1)] /\
  ModuleTs.emit disabled_nowhere "message" (VNum 1) (ModuleTs.bot w_message_off) = [].
Proof. vm_compute. repeat split; reflexivity. Qed.

(** For a data store event on [CouchDataStore], [registerEvent] keeps the
    promise of the [async] [subscribe]; [unregisterEvent] finds no [off] on
    it and throws, and the subscription goes on calling the handler. *)
Lemma unregisterEvent_throws_on_promise :
  ModuleTs.unregisterEvent "db.GuildData" (Some 7) w_guilddata
  = ModuleTs.Throw (TypeError "e.sub.off is not a function") w_guilddata /\
  ModuleTs.change disabled_nowhere "GuildData" (VNum 1) w_guilddata_off = [(7, VNum 1)].
Proof. vm_compute. split; reflexivity. Qed.

(** C3 (the code falls short of it): the listener attached to the
    framework's bus is the handler, not the wrapper, so an event that is a
    guild in which the module is disabled still calls it; on the Discord
    client the wrapper is attached and skips it. *)
Theorem bus_listener_is_unguarded :
  EventEmitter.listeners "tick" (ModuleTs.az_events w_tick) = [Raw 7] /\
  ModuleTs.emit disabled_everywhere "tick" (VGuild "g1") (ModuleTs.az_events w_tick)
  = [(7, VGuild "g1")] /\
  ModuleTs.emit disabled_everywhere "message" (VGuild "g1") (ModuleTs.bot w_message) = [].
Proof. vm_compute. repeat split; reflexivity. Qed.

(** Removing the binding of ['discord.message'] twice. *)
Lemma unregisterEvent_idempotent_witness :
  ModuleTs.unregisterEvent "discord.message" (Some 7) w_message
  = ModuleTs.Return tt w_message_off /\
  ModuleTs.unregisterEvent "discord.message" (Some 7) w_message_off
  = ModuleTs.Return tt w_message_off.
Proof.
  split; [vm_compute; reflexivity|].
  apply (ModuleFacts.unregisterEvent_idempotent "discord.message" (Some 7) w_message).
  vm_compute. reflexivity.
Defined.

(** *** Commands *)

(** Registering [PING] on a module that has registered [ping]. *)
Lemma registerCommand_register_throws_witness :
  ModuleTs.handler_of (ModuleTs.Function 4) None = Some 4 /\
  CommandManager.register (Command.Name "PING")
    (ModuleTs.options_of (ModuleTs.Function 4)) 4 (ModuleTs.az_commands w_ping)
  = (inl (Err "DuplicateTrigger"), ModuleTs.az_commands w_ping) /\
  exists w',
    ModuleTs.registerCommand CommandManager.register (Command.Name "PING")
      (ModuleTs.Function 4) None w_ping = ModuleTs.Return None w' /\
    ModuleTs.commands w' = ModuleTs.commands w_ping /\
    ModuleTs.az_log w' = ModuleTs.az_log w_ping ++ [Err "DuplicateTrigger"].
Proof.
  split; [reflexivity|]. split; [vm_compute; reflexivity|].
  apply (ModuleFacts.registerCommand_register_throws CommandManager.register
           (Command.Name "PING") (ModuleTs.Function 4) None 4
           (Err "DuplicateTrigger") (ModuleTs.az_commands w_ping) w_ping).
  - reflexivity.
  - vm_compute. reflexivity.
Defined.

(** *** Messages *)

(** A message of the blacklisted user 1002. *)
Lemma processMessage_blacklisted_witness :
  AzarasiJs.blacklist az_blacklist = Some ["1001"; "1002"]%string /\
  AzarasiJs.id (AzarasiJs.author msg_1002) ∈ ["1001"; "1002"]%string /\
  AzarasiJs.processMessage count_message msg_1002 az_blacklist = az_blacklist.
Proof.
  split; [reflexivity|]. split; [apply list_elem_of_further, list_elem_of_here|].
  apply (AzarasiFacts.processMessage_blacklisted count_message msg_1002 az_blacklist
           ["1001"; "1002"]%string).
  - reflexivity.
  - apply list_elem_of_further, list_elem_of_here.
Defined.
End Scenarios.


(** ** [Locale.gen] and [Locale.ugen] *)

Module LocaleFacts.
Import Locale.
Local Open Scope string_scope.

Lemma append_cons c u x : String c u ++ x = String c (u ++ x).
Proof. reflexivity. Qed.

Lemma prefix_ci_cons p pat c s :
  prefix_ci (String p pat) (String c s) = eqb_ci p c && prefix_ci pat s.
Proof. reflexivity. Qed.

Lemma eqb_ci_at a c : eqb_ci "@" c = true -> eqb_ci a c = eqb_ci a "@".
Proof.
  unfold eqb_ci. intros Hc. apply bool_decide_eq_true in Hc.
  by rewrite <- Hc.
Qed.

Lemma eqb_ci_sym a b : eqb_ci a b = eqb_ci b a.
Proof. unfold eqb_ci. apply bool_decide_ext. split; congruence. Qed.

Lemma covers_refl p s : covers p p s = true.
Proof.
  induction s as [|c s IH]; simpl.
  - by destruct (prefix_ci p "").
  - rewrite IH. by destruct (prefix_ci p (String c s)).
Qed.

Lemma covers_absent p1 p2 s : occurs_ci p2 s = false -> covers p1 p2 s = true.
Proof.
  induction s as [|c s IH]; simpl; intros Hocc.
  - apply orb_false_iff in Hocc as [-> _]. done.
  - apply orb_false_iff in Hocc as [-> Hocc]. simpl. by apply IH.
Qed.

Lemma covers_tail p1 p2 c s : covers p1 p2 (String c s) = true -> covers p1 p2 s = true.
Proof. simpl. intros Hc. by apply andb_true_iff in Hc as [_ Hc]. Qed.

Section pass.
(** One pass replaces [@q1] by [@z r]; [@h2 q2] is a pattern to keep out. *)
Variables (q1 r q2 : string) (z h2 : ascii).
Hypothesis Hq2 : no_at (String h2 q2) = true.
Hypothesis Hr : no_at (String z r) = true.
Hypothesis Hz : eqb_ci h2 z = false.

(** A pattern without at sign matches the result of the pass where it
    matches the text. *)
Lemma prefix_after_pass q s :
  no_at q = true ->
  prefix_ci q (replace_ci (String "@" q1) (String "@" (String z r)) 0 s)
  = prefix_ci q s.
Proof.
  revert s. induction q as [|a q IH]; intros s Hq; [done|].
  simpl in Hq. apply andb_true_iff in Hq as [Ha Hq].
  apply negb_true_iff in Ha.
  destruct s as [|c s]; [done|].
  cbn [replace_ci].
  destruct (prefix_ci (String "@" q1) (String c s)) eqn:Hm.
  - cbn [prefix_ci] in Hm. apply andb_true_iff in Hm as [Hc _].
    rewrite append_cons. cbn [prefix_ci].
    rewrite (eqb_ci_at a c Hc).
    rewrite (eqb_ci_sym a "@"), Ha. done.
  - cbn [prefix_ci]. by rewrite IH.
Qed.

Lemma occurs_after_no_at u x :
  no_at u = true ->
  occurs_ci (String "@" (String h2 q2)) (u ++ x)
  = occurs_ci (String "@" (String h2 q2)) x.
Proof.
  induction u as [|c u IH]; intros Hu; [done|].
  simpl in Hu. apply andb_true_iff in Hu as [Hc Hu].
  apply negb_true_iff in Hc.
  rewrite append_cons. cbn [occurs_ci prefix_ci]. rewrite Hc. simpl. by apply IH.
Qed.

(** If [@q1] matches wherever [@h2 q2] does, the result of the pass has no
    match of [@h2 q2]. *)
Lemma pass_removes s k :
  covers (String "@" q1) (String "@" (String h2 q2)) s = true ->
  occurs_ci (String "@" (String h2 q2))
    (replace_ci (String "@" q1) (String "@" (String z r)) k s) = false.
Proof.
  revert k. induction s as [|c s IH]; intros k Hcov; [done|].
  pose proof (covers_tail _ _ _ _ Hcov) as Htail.
  destruct k as [|k]; cbn [replace_ci]; [|by apply IH].
  destruct (prefix_ci (String "@" q1) (String c s)) eqn:Hm.
  - rewrite !append_cons. cbn [occurs_ci prefix_ci].
    rewrite Hz, andb_false_r. simpl.
    simpl in Hr. apply andb_true_iff in Hr as [Hzat Hrat].
    apply negb_true_iff in Hzat. rewrite Hzat. simpl.
    rewrite occurs_after_no_at by done. by apply IH.
  - cbn [occurs_ci]. rewrite (IH 0 Htail), orb_false_r.
    cbn [covers] in Hcov. apply andb_true_iff in Hcov as [Himp _].
    rewrite Hm in Himp.
    destruct (prefix_ci (String "@" (String h2 q2)) (String c s)) eqn:Hp2; [done|].
    rewrite prefix_ci_cons in Hp2 |- *.
    rewrite prefix_after_pass by done. exact Hp2.
Qed.
End pass.

(** A text in which the pattern does not occur passes unchanged. *)
Lemma replace_absent pat repl s :
  occurs_ci pat s = false -> replace_ci pat repl 0 s = s.
Proof.
  induction s as [|c s IH]; intros Hocc; [done|].
  cbn [occurs_ci] in Hocc. apply orb_false_iff in Hocc as [Hp Hocc].
  cbn [replace_ci]. rewrite Hp. by rewrite IH.
Qed.

Lemma escape_clean s :
  occurs_ci "@everyone" (escape s) = false /\ occurs_ci "@here" (escape s) = false.
Proof.
  unfold escape. split.
  - apply (pass_removes "here" (String (ascii_of_nat 128)
             (String (ascii_of_nat 139) "here")) "veryone"
             (ascii_of_nat 226) "e"); [done..|].
    apply covers_absent.
    apply (pass_removes "everyone" (String (ascii_of_nat 128)
             (String (ascii_of_nat 139) "everyone")) "veryone"
             (ascii_of_nat 226) "e"); [done..|].
    apply covers_refl.
  - apply (pass_removes "here" (String (ascii_of_nat 128)
             (String (ascii_of_nat 139) "here")) "ere"
             (ascii_of_nat 226) "h"); [done..|].
    apply covers_refl.
Qed.

(** X1: whatever the template and the arguments, the text [gen] returns
    has no [@everyone] and no [@here], in any case of the letters. *)
Theorem gen_no_mention template rest :
  occurs_ci "@everyone" (gen template rest) = false /\
  occurs_ci "@here" (gen template rest) = false.
Proof. apply escape_clean. Qed.

(** X2: escaping what is already escaped changes nothing: the two
    [replace] calls of [gen] leave a text they have produced as it is. *)
Theorem escape_idempotent s : escape (escape s) = escape s.
Proof.
  destruct (escape_clean s) as [He Hh].
  unfold escape at 1.
  rewrite (replace_absent "@everyone") by done.
  by rewrite (replace_absent "@here").
Qed.
(** *** Placeholders *)

Lemma append_assoc (a b c : string) : (a ++ b) ++ c = a ++ (b ++ c).
Proof. induction a as [|x a IH]; [done|]. rewrite !append_cons. by rewrite IH. Qed.

Lemma substitute_no_brace args pre x :
  no_brace pre = true ->
  substitute args 0 (pre ++ x) = pre ++ substitute args 0 x.
Proof.
  induction pre as [|c pre IH]; intros Hpre; [done|].
  simpl in Hpre. apply andb_true_iff in Hpre as [Hc Hpre].
  apply negb_true_iff, bool_decide_eq_false in Hc.
  rewrite !append_cons. cbn [substitute].
  destruct (decide (c = "{"%char)); [done|]. by rewrite IH.
Qed.

Lemma substitute_skip args u k x :
  substitute args (String.length u + k) (u ++ x) = substitute args k x.
Proof. induction u as [|c u IH]; [done|]. rewrite append_cons. simpl. apply IH. Qed.

Lemma span_digits_closed ds post :
  all_digits ds = true ->
  span_digits (ds ++ String "}" post) = (ds, String "}" post).
Proof.
  induction ds as [|c ds IH]; intros Hds; [done|].
  simpl in Hds. apply andb_true_iff in Hds as [Hc Hds].
  rewrite append_cons. cbn [span_digits]. rewrite Hc, IH by done. done.
Qed.

Lemma placeholder_closed d ds post :
  all_digits (String d ds) = true ->
  placeholder (String d ds ++ String "}" post) = Some (String d ds).
Proof.
  intros Hds. unfold placeholder. rewrite span_digits_closed by done.
  destruct (decide ("}"%char = "}"%char)); done.
Qed.

Lemma substitute_placeholder args pre d ds post :
  no_brace pre = true -> all_digits (String d ds) = true ->
  substitute args 0 (pre ++ "{" ++ String d ds ++ "}" ++ post)
  = pre ++ argument args (String d ds) ++ substitute args 0 post.
Proof.
  intros Hpre Hds. rewrite substitute_no_brace by done. f_equal.
  change ("{" ++ String d ds ++ "}" ++ post)
    with (String "{" (String d ds ++ String "}" post)).
  cbn [substitute]. destruct (decide ("{"%char = "{"%char)); [|done].
  rewrite placeholder_closed by done. f_equal.
  change (String d ds ++ String "}" post)
    with (String d ds ++ (String "}" EmptyString ++ post)).
  rewrite <- append_assoc.
  replace (String.length (String d ds) + 1)
    with (String.length (String d ds ++ String "}" EmptyString) + 0).
  - apply substitute_skip.
  - clear. rewrite Nat.add_0_r. generalize (String d ds). intros u.
    induction u as [|c u IH]; [done|]. rewrite append_cons. simpl. by rewrite IH.
Qed.

(** X3: a template without an opening brace comes back as it is from
    [ugen]; [gen] only escapes it. *)
Theorem ugen_plain template rest :
  no_brace template = true ->
  ugen template rest = template /\ gen template rest = escape template.
Proof.
  intros Hb. unfold gen, ugen.
  assert (Hnil : template ++ "" = template).
  { clear. induction template as [|c t IH]; [done|].
    rewrite append_cons. by rewrite IH. }
  assert (Hs : substitute (template :: rest) 0 template = template).
  { rewrite <- Hnil at 2. rewrite substitute_no_brace by done. exact Hnil. }
  by rewrite Hs.
Qed.

(** X4: a placeholder [{n}] whose number names an argument is replaced by
    that argument, [{0}] being the template itself; the text before it,
    free of braces, is kept and the text after it is treated in turn. *)
Theorem ugen_placeholder template rest pre d ds post n a :
  template = pre ++ "{" ++ String d ds ++ "}" ++ post ->
  no_brace pre = true -> all_digits (String d ds) = true ->
  canonical (String d ds) = true ->
  number 0 (String d ds) = N.of_nat n ->
  (template :: rest) !! n = Some a ->
  ugen template rest = pre ++ a ++ substitute (template :: rest) 0 post.
Proof.
  intros Ht Hpre Hds Hcan Hnum Ha. unfold ugen. rewrite Ht at 2.
  rewrite substitute_placeholder by done.
  unfold argument. rewrite Hcan, Hnum, Nat2N.id, Ha.
  apply lookup_lt_Some in Ha.
  destruct (N.ltb_spec (N.of_nat n) (N.of_nat (length (template :: rest))));
    [done|lia].
Qed.

(** X5: a placeholder written with a leading zero, or whose number is
    not below the number of arguments (the template counted), is replaced
    by [undefined]. *)
Theorem ugen_missing template rest pre d ds post :
  template = pre ++ "{" ++ String d ds ++ "}" ++ post ->
  no_brace pre = true -> all_digits (String d ds) = true ->
  canonical (String d ds) = false \/
    (N.of_nat (length (template :: rest)) <= number 0 (String d ds))%N ->
  ugen template rest = pre ++ "undefined" ++ substitute (template :: rest) 0 post.
Proof.
  intros Ht Hpre Hds Hmiss. unfold ugen. rewrite Ht at 2.
  rewrite substitute_placeholder by done.
  unfold argument. destruct Hmiss as [->|Hge]; [done|].
  destruct (N.ltb_spec (number 0 (String d ds))
              (N.of_nat (length (template :: rest)))); [lia|].
  by rewrite andb_false_r.
Qed.
End LocaleFacts.


(** ** More on the CouchDB data store *)

Module CouchMore.
Import DataStores Couch.
Section facts.
Variable uuid : Docs -> string.
Implicit Types (st : CouchDataStore) (k : string) (v : Value).

(** X9: on a ready store, [set] of a key that has a document changes
    that document only: the other documents and the subscriptions stay. *)
Theorem set_stored_key_frame k v r v0 st :
  ready st = true -> db st !! k = Some (r, v0) ->
  (forall k', k' <> k -> db (set uuid k v st).2 !! k' = db st !! k') /\
  subscriptions (set uuid k v st).2 = subscriptions st.
Proof.
  intros Hr Hk. rewrite (CouchFacts.set_stored_key uuid k v r v0) by done.
  simpl. split; [|done]. intros k' Hne. by rewrite lookup_insert_ne.
Qed.

(** X10: the change listener calls exactly the handlers of the
    subscriptions on the changed key, each with the new value. *)
Theorem on_change_calls id v st h v' :
  (h, v') ∈ on_change id v st <->
  v' = v /\ exists s, s ∈ subscriptions st /\ key s = id /\ handler s = h.
Proof.
  unfold on_change. rewrite list_elem_of_In, in_map_iff. split.
  - intros (s & Heq & Hin). inversion Heq; subst.
    apply filter_In in Hin as [Hin Hkey].
    apply bool_decide_eq_true in Hkey.
    split; [done|]. exists s. by rewrite list_elem_of_In.
  - intros (-> & s & Hin & Hkey & Hh). exists s. split; [by rewrite Hh|].
    apply filter_In. split; [by apply list_elem_of_In|].
    by apply bool_decide_eq_true.
Qed.

Lemma subscribe_ready k h st :
  ready st = true ->
  subscribe k h st
  = (Fulfilled {| ref := heap st; key := k; handler := h |},
     set_heap (S (heap st))
       (set_subscriptions
          (subscriptions st ++ [ {| ref := heap st; key := k; handler := h |} ]) st)).
Proof. intros Hr. unfold subscribe, await, ensureReady. by rewrite Hr. Qed.

(** X11: on a ready store, a subscription made on a key is called last on the
    next change of that key, after the handlers that were there, and a
    change of another key calls what it called before. *)
Theorem subscribe_delivers k h st v :
  ready st = true ->
  on_change k v (subscribe k h st).2 = on_change k v st ++ [(h, v)] /\
  (forall k', k' <> k ->
     on_change k' v (subscribe k h st).2 = on_change k' v st).
Proof.
  intros Hr. rewrite subscribe_ready by done. unfold on_change. simpl. split.
  - rewrite List.filter_app, map_app. simpl.
    by rewrite bool_decide_eq_true_2.
  - intros k' Hne. rewrite List.filter_app, map_app. simpl.
    rewrite bool_decide_eq_false_2 by done. simpl. by rewrite app_nil_r.
Qed.
Lemma scan_range (x : DataSubscription) l i :
  JsArray.scan x l i = (-1)%Z \/
  (i <= JsArray.scan x l i < i + Z.of_nat (length l))%Z.
Proof.
  revert i. induction l as [|y l IH]; intros i; simpl; [by left|].
  destruct (decide (y = x)); [right; lia|].
  destruct (IH (i + 1)%Z) as [->|Hr]; [by left|right; lia].
Qed.

(** X12: [off] never adds to the table nor reorders it, and takes at least
    one entry out of a table that has any, whether or not the subscription
    is in it: what is left is a proper prefix. *)
Theorem off_shrinks s st :
  exists n,
    subscriptions (off s st) = take n (subscriptions st) /\
    (subscriptions st <> [] -> n < length (subscriptions st)).
Proof.
  unfold off. simpl. unfold JsArray.indexOf.
  destruct (scan_range s (drop 1 (subscriptions st)) (Z.of_nat 1)) as [->|Hr].
  - exists (length (subscriptions st) - 1). split.
    + apply JsArrayFacts.splice_minus_one.
    + intros Hne. destruct (subscriptions st); [done|]. simpl. lia.
  - exists (Z.to_nat (JsArray.scan s (drop 1 (subscriptions st)) (Z.of_nat 1))).
    split; [apply JsArrayFacts.splice_rest; lia|].
    intros _. rewrite length_drop in Hr. lia.
Qed.
End facts.
End CouchMore.


(** ** More on the event bindings of a module *)

Module ModuleMore.
Import DataStores ModuleTs.

(** *** Names *)

Lemma split_dot_nonempty s : JsString.split_dot s <> [].
Proof.
  induction s as [|c s IH]; simpl; [done|].
  destruct (decide (c = "."%char)); [done|].
  by destruct (JsString.split_dot s).
Qed.

Lemma join_dot_cons c hd tl :
  JsString.join_dot (String c hd :: tl) = String c (JsString.join_dot (hd :: tl)).
Proof. by destruct tl. Qed.

Lemma join_split s : JsString.join_dot (JsString.split_dot s) = s.
Proof.
  induction s as [|c s IH]; simpl; [done|].
  pose proof (split_dot_nonempty s) as Hne.
  destruct (decide (c = "."%char)) as [->|_].
  - destruct (JsString.split_dot s) as [|x l]; [done|].
    change (JsString.join_dot ("" :: x :: l))
      with ("" ++ "." ++ JsString.join_dot (x :: l))%string.
    by rewrite IH.
  - destruct (JsString.split_dot s) as [|x l]; [done|].
    by rewrite join_dot_cons, IH.
Qed.

Lemma is_discord_cases p :
  is_discord p = true -> p = "discord" \/ p = "client" \/ p = "bot".
Proof.
  unfold is_discord. intros Hp.
  apply orb_true_iff in Hp as [Hp|Hp]; [apply orb_true_iff in Hp as [Hp|Hp]|];
    apply bool_decide_eq_true in Hp; auto.
Qed.

Lemma is_datastore_cases p :
  is_datastore p = true ->
  p = "db" \/ p = "ds" \/ p = "datastore" \/ p = "database".
Proof.
  unfold is_datastore. intros Hp.
  apply orb_true_iff in Hp as [Hp|Hp];
    [apply orb_true_iff in Hp as [Hp|Hp];
       [apply orb_true_iff in Hp as [Hp|Hp]|]|];
    apply bool_decide_eq_true in Hp; auto.
Qed.

(** After a namespace prefix and a dot, the parts are the prefix and the
    parts of the rest, and the rest is what [slice(1).join('.')] gives. *)
Lemma split_prefixed p ev :
  is_discord p = true \/ is_datastore p = true ->
  hd "" (JsString.split_dot (p ++ "." ++ ev)%string) = p /\
  JsString.join_dot (tl (JsString.split_dot (p ++ "." ++ ev)%string)) = ev.
Proof.
  intros [Hp|Hp].
  - apply is_discord_cases in Hp as [-> | [-> | ->]]; simpl;
      (split; [done|]; apply join_split).
  - apply is_datastore_cases in Hp as [-> | [-> | [-> | ->]]]; simpl;
      (split; [done|]; apply join_split).
Qed.

Section facts.
Context {CM DS : Type} `{IDataStore DS}.
Implicit Types (w : @World CM DS) (e : ModuleEvent).

(** *** Registering *)

Lemma registerEvent_discord_bot p ev h w :
  is_discord p = true ->
  bot (registerEvent (p ++ "." ++ ev)%string h w)
  = EventEmitter.on ev (Wrapper (next_id w) h) (bot w) /\
  az_events (registerEvent (p ++ "." ++ ev)%string h w) = az_events w.
Proof.
  intros Hp. destruct (split_prefixed p ev (or_introl Hp)) as [Hhd Hjoin].
  unfold registerEvent. by rewrite Hhd, Hp, Hjoin.
Qed.

(** X16: [registerEvent] of [discord.ev], [client.ev] or [bot.ev] puts one
    wrapper at the end of the client's listeners of [ev], whatever dots
    [ev] has, and leaves the other events of the client and the
    framework's bus alone. *)
Theorem registerEvent_discord_listens p ev h w :
  is_discord p = true ->
  EventEmitter.listeners ev (bot (registerEvent (p ++ "." ++ ev)%string h w))
  = EventEmitter.listeners ev (bot w) ++ [Wrapper (next_id w) h] /\
  (forall ev', ev' <> ev ->
     EventEmitter.listeners ev' (bot (registerEvent (p ++ "." ++ ev)%string h w))
     = EventEmitter.listeners ev' (bot w)) /\
  az_events (registerEvent (p ++ "." ++ ev)%string h w) = az_events w.
Proof.
  intros Hp. destruct (registerEvent_discord_bot p ev h w Hp) as [-> ->].
  unfold EventEmitter.on. split; [|split; [|done]].
  - unfold EventEmitter.listeners at 1. by rewrite lookup_insert_eq.
  - intros ev' Hne. unfold EventEmitter.listeners at 1.
    by rewrite lookup_insert_ne.
Qed.

(** X17: every call of [registerEvent] adds one binding at the end of
    [events], under the name and the handler given, and leaves the
    commands alone. *)
Theorem registerEvent_records name h w :
  exists e,
    events (registerEvent name h w) = events w ++ [e] /\
    ModuleTs.name e = name /\ originalHandler e = h /\
    commands (registerEvent name h w) = commands w.
Proof.
  unfold registerEvent.
  destruct (is_discord _); [eexists; simpl; done|].
  destruct (is_datastore _); [|eexists; simpl; done].
  cbn [next_id az_data set_next_id].
  destruct (ds_subscribe _ _ _) as [s d]. eexists. simpl. done.
Qed.

(** *** The guard *)

Section guard.
Variable isDisabledForGuild : Guild -> bool.

(** X18: an event of the Discord client reaches a handler registered for it
    through the guard: after the listeners that were there, the handler is
    called once, unless the payload is a guild, or has a guild, in which
    the module is disabled. *)
Theorem discord_event_guarded p ev h w payload :
  is_discord p = true ->
  emit isDisabledForGuild ev payload (bot (registerEvent (p ++ "." ++ ev)%string h w))
  = emit isDisabledForGuild ev payload (bot w)
    ++ match guild_of payload with
       | Some g => if isDisabledForGuild g then [] else [(h, payload)]
       | None => [(h, payload)]
       end.
Proof.
  intros Hp. unfold emit.
  destruct (registerEvent_discord_bot p ev h w Hp) as [-> _].
  unfold EventEmitter.on. unfold EventEmitter.listeners at 1.
  rewrite lookup_insert_eq. simpl.
  rewrite flat_map_app. simpl. by rewrite app_nil_r.
Qed.
End guard.

(** *** Unregistering *)

Lemma remove_last_snoc f l : EventEmitter.remove_last f (l ++ [f]) = l.
Proof.
  induction l as [|g l IH]; cbn [app EventEmitter.remove_last].
  - destruct (decide (f = f)); [|done].
    case_bool_decide as Hin; [by apply elem_of_nil in Hin|done].
  - destruct (decide (g = f)) as [->|_].
    + case_bool_decide as Hin; [by rewrite IH|].
      exfalso. apply Hin. apply elem_of_app. right. apply list_elem_of_here.
    + by rewrite IH.
Qed.

(** X19: on a module without bindings, [registerEvent] of an event of the
    Discord client followed by [unregisterEvent] of it returns, with no
    binding left and the client's listeners of the event as before. *)
Theorem register_unregister_discord p ev h w :
  is_discord p = true ->
  events w = [] ->
  exists w',
    unregisterEvent (p ++ "." ++ ev)%string (Some h) (registerEvent (p ++ "." ++ ev)%string h w)
    = Return tt w' /\
    events w' = [] /\
    EventEmitter.listeners ev (bot w') = EventEmitter.listeners ev (bot w).
Proof.
  intros Hp Hev. destruct (split_prefixed p ev (or_introl Hp)) as [Hhd Hjoin].
  unfold registerEvent. rewrite Hhd, Hp, Hjoin. cbn -[EventEmitter.on append].
  rewrite Hev. unfold unregisterEvent, JsArray.push, matches.
  cbn -[EventEmitter.on append].
  rewrite !bool_decide_eq_true_2 by done. cbn -[EventEmitter.on append].
  unfold unregister_one. cbn -[EventEmitter.on EventEmitter.removeListener append].
  unfold JsArray.indexOf. cbn -[EventEmitter.on EventEmitter.removeListener append].
  destruct (decide _) as [_|Hne]; [|done].
  eexists. split; [reflexivity|]. split; [reflexivity|].
  cbn -[EventEmitter.on EventEmitter.removeListener append].
  unfold EventEmitter.removeListener, EventEmitter.on.
  rewrite lookup_insert_eq. unfold EventEmitter.listeners at 1.
  rewrite lookup_insert_eq. simpl. apply remove_last_snoc.
Qed.

(** X21: [unregisterEvent] of a name under which the module has no
    binding returns and changes nothing. *)
Theorem unregisterEvent_unknown name handler w :
  (forall e, e ∈ events w -> ModuleTs.name e <> name) ->
  unregisterEvent name handler w = Return tt w.
Proof.
  intros Hnone. unfold unregisterEvent.
  assert (Hf : List.filter (matches name handler) (events w) = []).
  { induction (events w) as [|e l IH]; [done|]. simpl.
    unfold matches at 1.
    rewrite bool_decide_eq_false_2 by (apply Hnone, list_elem_of_here). simpl.
    apply IH. intros e' He'. apply Hnone. by apply list_elem_of_further. }
  by rewrite Hf.
Qed.
Lemma unregister_one_rest e w w' :
  unregister_one e w = Return tt w' ->
  commands w' = commands w /\ az_commands w' = az_commands w /\
  az_log w' = az_log w.
Proof.
  unfold unregister_one. intros Hret.
  destruct (type e).
  - destruct (removeListener (Some (name e)) (handler e) (az_events w));
      inversion Hret; done.
  - destruct (removeListener (evName e) (handler e) (bot w));
      inversion Hret; done.
  - destruct (sub_off (sub e) (az_data w)); inversion Hret; done.
Qed.

Lemma forEach_rest l w w' :
  forEach unregister_one l w = Return tt w' ->
  commands w' = commands w /\ az_commands w' = az_commands w /\
  az_log w' = az_log w.
Proof.
  revert w. induction l as [|e l IH]; intros w Hret; simpl in *.
  - by inversion Hret.
  - destruct (unregister_one e w) as [[] w1|err w1] eqn:Hone; [|done].
    apply unregister_one_rest in Hone as (Hc & Ha & Hl).
    apply IH in Hret as (Hc' & Ha' & Hl'). split; [|split]; congruence.
Qed.

(** X20: a call of [unregisterEvent] that returns leaves the bindings of
    other names, and those of the name with another handler when a handler
    is given, in their order, and touches neither the commands nor the
    error log. *)
Theorem unregisterEvent_keeps_others name handler w w' :
  unregisterEvent name handler w = Return tt w' ->
  events w' = List.filter (fun e => negb (matches name handler e)) (events w) /\
  commands w' = commands w /\ az_commands w' = az_commands w /\
  az_log w' = az_log w.
Proof.
  intros Hret. split; [by apply ModuleFacts.unregisterEvent_events|].
  unfold unregisterEvent in Hret. by apply forEach_rest in Hret.
Qed.
End facts.

(** *** Data store events on [CouchDataStore] *)

(** X22: on a ready store, [registerEvent] of [db.ch] (or [ds.], [datastore.],
    [database.]) subscribes the wrapper to [ch]: a change of [ch] calls the
    handler once more, through the guard, and after those called before. *)
Theorem datastore_event_guarded {CM : Type} (isDisabledForGuild : Guild -> bool)
    p ch h (w : @World CM Couch.CouchDataStore) v :
  is_datastore p = true ->
  Couch.ready (az_data w) = true ->
  change isDisabledForGuild ch v (registerEvent (p ++ "." ++ ch)%string h w)
  = change isDisabledForGuild ch v w ++ wrapper isDisabledForGuild h v.
Proof.
  intros Hp Hr. destruct (split_prefixed p ch (or_intror Hp)) as [Hhd Hjoin].
  assert (Hnd : is_discord p = false).
  { apply is_datastore_cases in Hp as [-> | [-> | [-> | ->]]]; done. }
  unfold registerEvent. rewrite Hhd, Hnd, Hp, Hjoin.
  cbn [next_id az_data set_next_id ds_subscribe Couch.Couch_IDataStore].
  rewrite CouchMore.subscribe_ready by done.
  unfold change. cbn [az_data set_events set_az_data ds_change Couch.Couch_IDataStore].
  unfold Couch.on_change. cbn [Couch.subscriptions Couch.set_heap Couch.set_subscriptions].
  rewrite List.filter_app, map_app, flat_map_app. simpl.
  rewrite bool_decide_eq_true_2 by done. simpl. by rewrite app_nil_r.
Qed.
(** X23: on [CouchDataStore], whose [subscribe] is [async], the binding of
    a data store event holds a promise: on a module without other
    bindings, [unregisterEvent] of an event just registered throws a
    [TypeError] and leaves the binding and the subscription as they are. *)
Theorem datastore_event_stays {CM : Type} p ch h (w : @World CM Couch.CouchDataStore) :
  is_datastore p = true ->
  events w = [] ->
  unregisterEvent (p ++ "." ++ ch)%string (Some h)
    (registerEvent (p ++ "." ++ ch)%string h w)
  = Throw (TypeError "e.sub.off is not a function")
      (registerEvent (p ++ "." ++ ch)%string h w).
Proof.
  intros Hp Hev. destruct (split_prefixed p ch (or_intror Hp)) as [Hhd Hjoin].
  assert (Hnd : is_discord p = false).
  { apply is_datastore_cases in Hp as [-> | [-> | [-> | ->]]]; done. }
  unfold registerEvent. rewrite Hhd, Hnd, Hp, Hjoin.
  cbn [next_id az_data set_next_id ds_subscribe Couch.Couch_IDataStore].
  destruct (Couch.subscribe ch (Wrapper (next_id w) h) (az_data w)) as [pr st'].
  cbn [events set_az_data set_next_id]. rewrite Hev.
  unfold unregisterEvent, JsArray.push, matches. cbn -[append].
  rewrite !bool_decide_eq_true_2 by done. reflexivity.
Qed.
End ModuleMore.


(** ** The properties above on concrete runs *)

Module Witnesses.
Import DataStores Fixtures Examples.

(** *** Locale *)

Lemma ugen_plain_witness :
  Locale.no_brace "Hello @here" = true /\
  Locale.ugen "Hello @here" [] = "Hello @here"%string /\
  Locale.gen "Hello @here" [] = Locale.escape "Hello @here".
Proof.
  split; [reflexivity|].
  apply (LocaleFacts.ugen_plain "Hello @here" []). reflexivity.
Defined.

Lemma ugen_placeholder_witness :
  Locale.no_brace "User " = true /\
  Locale.all_digits "1" = true /\
  Locale.canonical "1" = true /\
  Locale.number 0 "1" = N.of_nat 1 /\
  ("User {1} joined" :: ["TheBITLINK"])%string !! 1 = Some "TheBITLINK"%string /\
  Locale.ugen "User {1} joined" ["TheBITLINK"%string]
  = ("User " ++ "TheBITLINK"
     ++ Locale.substitute ["User {1} joined"; "TheBITLINK"] 0 " joined")%string.
Proof.
  repeat (split; [reflexivity|]).
  apply (LocaleFacts.ugen_placeholder "User {1} joined" ["TheBITLINK"%string]
           "User " "1"%char "" " joined" 1 "TheBITLINK"); reflexivity.
Defined.

Lemma ugen_missing_witness :
  Locale.no_brace "a " = true /\
  Locale.all_digits "01" = true /\
  Locale.canonical "01" = false /\
  Locale.ugen "a {01} b" ["x"%string]
  = ("a " ++ "undefined" ++ Locale.substitute ["a {01} b"; "x"] 0 " b")%string.
Proof.
  repeat (split; [reflexivity|]).
  apply (LocaleFacts.ugen_missing "a {01} b" ["x"%string] "a " "0"%char "1" " b");
    [reflexivity | reflexivity | reflexivity | left; reflexivity].
Defined.

(** *** Data store *)

Lemma set_get_stored_key_witness :
  Couch.ready stored = true /\
  Couch.db stored !! "k"%string = Some (1, VNum 1) /\
  (Couch.get "k" false (Couch.set uuid "k" (VNum 2) stored).2).1
  = Fulfilled (Couch.Plain (VNum 2)).
Proof.
  split; [reflexivity|]. split; [vm_compute; reflexivity|].
  apply (CouchFacts.set_get_stored_key uuid "k" (VNum 2) 1 (VNum 1) stored);
    [reflexivity | vm_compute; reflexivity].
Defined.

Lemma del_get_stored_key_witness :
  Couch.ready stored = true /\
  Couch.db stored !! "k"%string = Some (1, VNum 1) /\
  (Couch.del "k" stored).1 = Fulfilled "OK"%string /\
  (Couch.get "k" false (Couch.del "k" stored).2).1 = Fulfilled (Couch.Plain VNull).
Proof.
  split; [reflexivity|]. split; [vm_compute; reflexivity|].
  apply (CouchFacts.del_get_stored_key "k" 1 (VNum 1) stored);
    [reflexivity | vm_compute; reflexivity].
Defined.

Lemma del_missing_key_witness :
  Couch.ready (open_store ∅) = true /\
  CouchKeys.is_docid "k" = true /\
  Couch.db (open_store ∅) !! "k"%string = None /\
  Couch.del "k" (open_store ∅) = (Rejected (HttpError 404), open_store ∅).
Proof.
  split; [reflexivity|]. split; [reflexivity|]. split; [reflexivity|].
  apply (CouchFacts.del_missing_key "k" (open_store ∅)); reflexivity.
Defined.

Lemma set_stored_key_frame_witness :
  Couch.ready stored = true /\
  Couch.db stored !! "k"%string = Some (1, VNum 1) /\
  (forall k', k' <> "k"%string ->
     Couch.db (Couch.set uuid "k" (VNum 2) stored).2 !! k' = Couch.db stored !! k') /\
  Couch.subscriptions (Couch.set uuid "k" (VNum 2) stored).2
  = Couch.subscriptions stored.
Proof.
  split; [reflexivity|]. split; [vm_compute; reflexivity|].
  apply (CouchMore.set_stored_key_frame uuid "k" (VNum 2) 1 (VNum 1) stored);
    [reflexivity | vm_compute; reflexivity].
Defined.

Lemma on_change_calls_witness :
  (Raw 2, VNum 5) ∈ Couch.on_change "b" (VNum 5) table /\
  VNum 5 = VNum 5 /\
  exists s, s ∈ Couch.subscriptions table /\ key s = "b"%string /\ handler s = Raw 2.
Proof.
  assert (Hin : (Raw 2, VNum 5) ∈ Couch.on_change "b" (VNum 5) table)
    by (vm_compute; apply list_elem_of_here).
  split; [exact Hin|].
  exact (proj1 (CouchMore.on_change_calls "b" (VNum 5) table (Raw 2) (VNum 5)) Hin).
Defined.

Lemma subscribe_delivers_witness :
  Couch.ready table = true /\
  Couch.on_change "b" (VNum 5) (Couch.subscribe "b" (Raw 9) table).2
  = Couch.on_change "b" (VNum 5) table ++ [(Raw 9, VNum 5)] /\
  (forall k', k' <> "b"%string ->
     Couch.on_change k' (VNum 5) (Couch.subscribe "b" (Raw 9) table).2
     = Couch.on_change k' (VNum 5) table).
Proof.
  split; [reflexivity|].
  apply (CouchMore.subscribe_delivers "b" (Raw 9) table (VNum 5)). reflexivity.
Defined.

Lemma off_found_witness :
  Couch.subscriptions table = sub_a :: [] ++ sub_b :: [sub_c] /\
  (sub_b ∉ @nil DataSubscription) /\
  Couch.subscriptions (Couch.off sub_b table) = [sub_a].
Proof.
  split; [reflexivity|]. split; [apply not_elem_of_nil|].
  apply (CouchFacts.off_found sub_a [] sub_b [sub_c] table);
    [reflexivity | apply not_elem_of_nil].
Defined.

(** *** Module *)

Lemma registerCommand_registers_witness :
  ModuleTs.handler_of (ModuleTs.Function 3) None = Some 3 /\
  ModuleTs.commands
    (ModuleTs.world_of
       (ModuleTs.registerCommand CommandManager.register (Command.Name "Ping")
          (ModuleTs.Function 3) None w0)) !! "ping"%string
  = Some {| Command.name := "ping"; Command.handler := 3;
            Command.module := Some "m"%string |}.
Proof.
  split; [reflexivity|].
  apply (ModuleFacts.registerCommand_registers CommandManager.register
           (Command.Name "Ping") (ModuleTs.Function 3) None 3
           {| Command.name := "ping"; Command.handler := 3; Command.module := None |}
           (ModuleTs.az_commands w0 ++
              [ {| Command.name := "ping"; Command.handler := 3;
                   Command.module := None |} ]) w0);
    [reflexivity | vm_compute; reflexivity].
Defined.

Lemma registerEvent_discord_listens_witness :
  ModuleTs.is_discord "client" = true /\
  EventEmitter.listeners "guild.member.add"
    (ModuleTs.bot (ModuleTs.registerEvent "client.guild.member.add" 7 w0))
  = [Wrapper 0 7].
Proof.
  split; [reflexivity|].
  apply (ModuleMore.registerEvent_discord_listens "client" "guild.member.add" 7 w0).
  reflexivity.
Defined.

Lemma discord_event_guarded_witness :
  ModuleTs.is_discord "discord" = true /\
  ModuleTs.emit disabled_everywhere "message" (VObj (Some "g1"%string))
    (ModuleTs.bot (ModuleTs.registerEvent "discord.message" 7 w0)) = [].
Proof.
  split; [reflexivity|].
  apply (ModuleMore.discord_event_guarded disabled_everywhere "discord" "message" 7 w0
           (VObj (Some "g1"%string))).
  reflexivity.
Defined.

Lemma register_unregister_discord_witness :
  ModuleTs.is_discord "discord" = true /\
  ModuleTs.events w0 = [] /\
  exists w',
    ModuleTs.unregisterEvent "discord.message" (Some 7)
      (ModuleTs.registerEvent "discord.message" 7 w0) = ModuleTs.Return tt w' /\
    ModuleTs.events w' = [] /\
    EventEmitter.listeners "message" (ModuleTs.bot w')
    = EventEmitter.listeners "message" (ModuleTs.bot w0).
Proof.
  split; [reflexivity|]. split; [reflexivity|].
  apply (ModuleMore.register_unregister_discord "discord" "message" 7 w0);
    reflexivity.
Defined.

Lemma unregisterEvent_keeps_others_witness :
  ModuleTs.unregisterEvent "discord.message" (Some 7) w_pair
  = ModuleTs.Return tt w_pair_off /\
  map ModuleTs.originalHandler (ModuleTs.events w_pair_off) = [8].
Proof.
  assert (Hret : ModuleTs.unregisterEvent "discord.message" (Some 7) w_pair
                 = ModuleTs.Return tt w_pair_off) by (vm_compute; reflexivity).
  split; [exact Hret|].
  rewrite (proj1 (ModuleMore.unregisterEvent_keeps_others
                    "discord.message" (Some 7) w_pair w_pair_off Hret)).
  vm_compute. reflexivity.
Defined.

Lemma unregisterEvent_unknown_witness :
  (forall e, e ∈ ModuleTs.events w_tick -> ModuleTs.name e <> "tock"%string) /\
  ModuleTs.unregisterEvent "tock" None w_tick = ModuleTs.Return tt w_tick.
Proof.
  assert (Hnone : forall e, e ∈ ModuleTs.events w_tick ->
                            ModuleTs.name e <> "tock"%string).
  { intros e He. vm_compute in He.
    apply list_elem_of_singleton in He. subst e. discriminate. }
  split; [exact Hnone|].
  apply (ModuleMore.unregisterEvent_unknown "tock" None w_tick Hnone).
Defined.

Lemma datastore_event_guarded_witness :
  ModuleTs.is_datastore "db" = true /\
  Couch.ready (ModuleTs.az_data w0) = true /\
  ModuleTs.change disabled_nowhere "GuildData" (VNum 1)
    (ModuleTs.registerEvent "db.GuildData" 7 w0) = [(7, VNum 1)].
Proof.
  split; [reflexivity|]. split; [reflexivity|].
  apply (ModuleMore.datastore_event_guarded disabled_nowhere "db" "GuildData" 7 w0
           (VNum 1)); reflexivity.
Defined.

Lemma datastore_event_stays_witness :
  ModuleTs.is_datastore "db" = true /\
  ModuleTs.events w0 = [] /\
  ModuleTs.unregisterEvent "db.GuildData" (Some 7)
    (ModuleTs.registerEvent "db.GuildData" 7 w0)
  = ModuleTs.Throw (TypeError "e.sub.off is not a function")
      (ModuleTs.registerEvent "db.GuildData" 7 w0).
Proof.
  split; [reflexivity|]. split; [reflexivity|].
  apply (ModuleMore.datastore_event_stays "db" "GuildData" 7 w0); reflexivity.
Defined.

(** *** Messages *)

Lemma processMessage_dispatches_witness :
  (forall l, AzarasiJs.blacklist az_blacklist = Some l ->
             AzarasiJs.id (AzarasiJs.author msg_2000) ∉ l) /\
  AzarasiJs.dispatched (AzarasiJs.processMessage count_message msg_2000 az_blacklist)
  = [msg_2000].
Proof.
  assert (Hout : forall l, AzarasiJs.blacklist az_blacklist = Some l ->
                           AzarasiJs.id (AzarasiJs.author msg_2000) ∉ l).
  { intros l Hl. injection Hl as <-. intros Hin.
    apply elem_of_cons in Hin as [Hin|Hin]; [discriminate|].
    apply elem_of_cons in Hin as [Hin|Hin]; [discriminate|].
    by apply elem_of_nil in Hin. }
  split; [exact Hout|].
  rewrite (AzarasiFacts.processMessage_dispatches count_message msg_2000
             az_blacklist Hout).
  reflexivity.
Defined.
End Witnesses.
